(** * chainladder: triangle aggregation and the incremental additive method

    A shallow embedding of [chainladder/core/pandas.py] and
    [chainladder/development/incremental.py].

    Cells are IEEE-754 binary64 numbers, as in numpy's [float64]; NaN is the
    missing-value marker.  An [ndarray] carries its shape next to its
    buffer, as numpy's does.  Python exceptions are the [Raise] branch of
    [result]. *)

From Stdlib Require Import String Bool Arith ZArith Lia List.
From Stdlib Require Import Floats.PrimFloat.
From Stdlib Require Import Sorting.Sorted.
Import ListNotations.

(** ** Exceptions *)

Inductive exn : Type :=
| ValueError
| TypeError
| AttributeError
| KeyError
| NameError
| NotImplementedError.

Inductive result (A : Type) : Type :=
| Ok (a : A)
| Raise (e : exn).

Arguments Ok {A} a.
Arguments Raise {A} e.

Definition bind {A B : Type} (m : result A) (f : A -> result B) : result B :=
  match m with
  | Ok a => f a
  | Raise e => Raise e
  end.

Declare Scope py_scope.
Delimit Scope py_scope with py.
Notation "x <- m ;; k" := (bind m (fun x => k))
  (at level 100, m at next level, right associativity) : py_scope.
Open Scope py_scope.

Fixpoint mapM {A B : Type} (f : A -> result B) (xs : list A) : result (list B) :=
  match xs with
  | [] => Ok []
  | x :: r => y <- f x ;; ys <- mapM f r ;; Ok (y :: ys)
  end.

(** ** numpy: four-dimensional arrays *)

Module Np.

Definition shape4 : Type := (nat * nat * nat * nat)%type.

Record ndarray : Type := mk_ndarray {
  shape : shape4;
  data : list (list (list (list float)))
}.

Definition dim (ax : nat) (s : shape4) : nat :=
  let '(nr, nc, no, nd) := s in
  match ax with
  | 0 => nr
  | 1 => nc
  | 2 => no
  | _ => nd
  end.

Definition set_dim (ax n : nat) (s : shape4) : shape4 :=
  let '(nr, nc, no, nd) := s in
  match ax with
  | 0 => (n, nc, no, nd)
  | 1 => (nr, n, no, nd)
  | 2 => (nr, nc, n, nd)
  | _ => (nr, nc, no, n)
  end.

Definition shape_eqb (s t : shape4) : bool :=
  let '(a, b, c, d) := s in
  let '(a', b', c', d') := t in
  (a =? a') && (b =? b') && (c =? c') && (d =? d').

(** [build s g] is the array of shape [s] whose cell [(i,j,k,l)] is
    [g i j k l]. *)
Definition build_data (s : shape4) (g : nat -> nat -> nat -> nat -> float)
  : list (list (list (list float))) :=
  let '(nr, nc, no, nd) := s in
  map (fun i =>
    map (fun j =>
      map (fun k =>
        map (fun l => g i j k l) (seq 0 nd)) (seq 0 no)) (seq 0 nc)) (seq 0 nr).

Definition build (s : shape4) (g : nat -> nat -> nat -> nat -> float) : ndarray :=
  {| shape := s; data := build_data s g |}.

(** [values[i, j, k, l]] *)
Definition get (v : ndarray) (i j k l : nat) : float :=
  nth l (nth k (nth j (nth i (data v) []) []) []) nan.

(** [np.array(nested)] for a rectangular nested list. *)
Definition array (d : list (list (list (list float)))) : ndarray :=
  let b := hd [] d in
  let c := hd [] b in
  let e := hd [] c in
  {| shape := (length d, length b, length c, length e); data := d |}.

Definition in_range (s : shape4) (i j k l : nat) : Prop :=
  let '(nr, nc, no, nd) := s in i < nr /\ j < nc /\ k < no /\ l < nd.

(** Elementwise map, [ufunc(values)]. *)
Definition map4 (f : float -> float) (v : ndarray) : ndarray :=
  {| shape := shape v;
     data := map (map (map (map f))) (data v) |}.

(** The index [(i,j,k,l)] with its component on axis [ax] replaced. *)
Definition at_axis (ax t i j k l : nat) : nat * nat * nat * nat :=
  match ax with
  | 0 => (t, j, k, l)
  | 1 => (i, t, k, l)
  | 2 => (i, j, t, l)
  | _ => (i, j, k, t)
  end.

(** The one-dimensional slice of [v] along [ax] through [(i,j,k,l)]. *)
Definition lane (v : ndarray) (ax i j k l : nat) : list float :=
  map (fun t => let '(a, b, c, d) := at_axis ax t i j k l in get v a b c d)
      (seq 0 (dim ax (shape v))).

(** [f(values, axis=ax, keepdims=True)] for a reducer [f] of slices. *)
Definition reduce_keepdims (f : list float -> float) (ax : nat) (v : ndarray)
  : ndarray :=
  build (set_dim ax 1 (shape v)) (fun i j k l => f (lane v ax i j k l)).

(** [np.concatenate(arrays, 0)]: the arrays must agree on axes 1..3, and
    there must be at least one. *)
Definition tail_shape_eqb (s t : shape4) : bool :=
  shape_eqb (set_dim 0 0 s) (set_dim 0 0 t).

Definition concatenate0 (vs : list ndarray) : result ndarray :=
  match vs with
  | [] => Raise ValueError
  | v :: r =>
      if forallb (fun w => tail_shape_eqb (shape v) (shape w)) r
      then Ok {| shape := set_dim 0 (list_sum (map (fun w => dim 0 (shape w)) vs))
                                  (shape v);
                 data := concat (map data vs) |}
      else Raise ValueError
  end.

(** *** Reducers of one slice *)

Definition nan_to (d : float) (x : float) : float :=
  if is_nan x then d else x.

Definition not_nan (x : float) : bool := negb (is_nan x).

(** [ufunc.reduce] over a slice: the first element seeds the fold, the
    identity [e] is the value of an empty slice. *)
Definition ufunc_reduce (op : float -> float -> float) (e : float)
  (xs : list float) : float :=
  match xs with
  | [] => e
  | x :: r => fold_left op r x
  end.

Definition np_sum : list float -> float := ufunc_reduce PrimFloat.add 0%float.
Definition np_prod : list float -> float := ufunc_reduce PrimFloat.mul 1%float.

Fixpoint float_of_nat (n : nat) : float :=
  match n with
  | 0 => 0%float
  | S m => (float_of_nat m + 1)%float
  end.

Definition count_valid (xs : list float) : nat :=
  length (filter not_nan xs).

(** [np.nansum]: NaN counts as 0. *)
Definition nansum (xs : list float) : float :=
  np_sum (map (nan_to 0%float) xs).

(** [np.nanprod]: NaN counts as 1. *)
Definition nanprod (xs : list float) : float :=
  np_prod (map (nan_to 1%float) xs).

(** [np.nanmean]: the sum with NaN as 0 over the number of non-NaN cells. *)
Definition nanmean (xs : list float) : float :=
  (nansum xs / float_of_nat (count_valid xs))%float.

Definition fmax (a b : float) : float :=
  if is_nan a then b else if is_nan b then a
  else if (a <? b)%float then b else a.

Definition fmin (a b : float) : float :=
  if is_nan a then b else if is_nan b then a
  else if (b <? a)%float then b else a.

(** [np.nanmax], [np.nanmin] are [np.fmax.reduce], [np.fmin.reduce]; they
    have no identity (an empty slice is refused before they are called). *)
Definition nanmax : list float -> float := ufunc_reduce fmax nan.
Definition nanmin : list float -> float := ufunc_reduce fmin nan.

(** [np.nanvar] with [ddof=0]. *)
Definition nanvar (xs : list float) : float :=
  let cnt := count_valid xs in
  let avg := nanmean xs in
  let sqr := map (fun x => if is_nan x then 0%float
                           else ((x - avg) * (x - avg))%float) xs in
  if cnt =? 0 then nan else (np_sum sqr / float_of_nat cnt)%float.

Definition nanstd (xs : list float) : float := sqrt (nanvar xs).

Fixpoint insert_sorted (x : float) (xs : list float) : list float :=
  match xs with
  | [] => [x]
  | y :: r => if (x <=? y)%float then x :: xs else y :: insert_sorted x r
  end.

Definition sort_floats (xs : list float) : list float :=
  fold_right insert_sorted [] xs.

(** [np.nanmedian]: the median of the non-NaN cells, NaN when there is
    none. *)
Definition nanmedian (xs : list float) : float :=
  let ys := sort_floats (filter not_nan xs) in
  let n := length ys in
  if n =? 0 then nan
  else if Nat.odd n then nth (n / 2) ys nan
  else ((nth (n / 2 - 1) ys nan + nth (n / 2) ys nan) / 2)%float.

(** The largest [k < n] with [k <= x], for [0 <= x]. *)
Definition floor_index (x : float) (n : nat) : nat :=
  length (filter (fun k => (float_of_nat k <=? x)%float) (seq 1 (n - 1))).

Definition lerp (a b t : float) : float :=
  if (0.5 <=? t)%float then (b - (b - a) * (1 - t))%float
  else (a + (b - a) * t)%float.

(** [np.nanquantile(q)] with the default linear interpolation: the
    quantile of the non-NaN cells, NaN when there is none. *)
Definition nanquantile (q : float) (xs : list float) : float :=
  let ys := sort_floats (filter not_nan xs) in
  let n := length ys in
  if n =? 0 then nan
  else
    let vi := (q * float_of_nat (n - 1))%float in
    let lo := floor_index vi n in
    let hi := Nat.min (S lo) (n - 1) in
    lerp (nth lo ys nan) (nth hi ys nan) (vi - float_of_nat lo)%float.

(** *** The functions [getattr(xp, v)] can return *)

Inductive func : Type :=
| f_nansum | f_nanmean | f_nanmedian | f_nanmax | f_nanmin | f_nanprod
| f_nanvar | f_nanstd | f_nancumsum | f_nanquantile | f_diff.

Definition getattr (v : string) : result func :=
  if String.eqb v "nansum" then Ok f_nansum
  else if String.eqb v "nanmean" then Ok f_nanmean
  else if String.eqb v "nanmedian" then Ok f_nanmedian
  else if String.eqb v "nanmax" then Ok f_nanmax
  else if String.eqb v "nanmin" then Ok f_nanmin
  else if String.eqb v "nanprod" then Ok f_nanprod
  else if String.eqb v "nanvar" then Ok f_nanvar
  else if String.eqb v "nanstd" then Ok f_nanstd
  else if String.eqb v "nancumsum" then Ok f_nancumsum
  else if String.eqb v "nanquantile" then Ok f_nanquantile
  else if String.eqb v "diff" then Ok f_diff
  else Raise AttributeError.

(** [func(values, axis=ax, keepdims=True, **kwargs)], where [kwargs] holds
    at most [q].  [nancumsum] and [diff] take no [keepdims]; [nanquantile]
    needs [q] in [0, 1] and the others refuse it; [fmax] and [fmin] refuse
    an empty axis. *)
Definition call (f : func) (v : ndarray) (ax : nat) (q : option float)
  : result ndarray :=
  let plain (r : list float -> float) :=
    match q with
    | None => Ok (reduce_keepdims r ax v)
    | Some _ => Raise TypeError
    end in
  let nonempty (r : list float -> float) :=
    match q with
    | None => if dim ax (shape v) =? 0 then Raise ValueError
              else Ok (reduce_keepdims r ax v)
    | Some _ => Raise TypeError
    end in
  match f with
  | f_nansum => plain nansum
  | f_nanmean => plain nanmean
  | f_nanmedian => plain nanmedian
  | f_nanmax => nonempty nanmax
  | f_nanmin => nonempty nanmin
  | f_nanprod => plain nanprod
  | f_nanvar => plain nanvar
  | f_nanstd => plain nanstd
  | f_nancumsum => Raise TypeError
  | f_diff => Raise TypeError
  | f_nanquantile =>
      match q with
      | None => Raise TypeError
      | Some q' =>
          if ((0 <=? q') && (q' <=? 1))%float
          then Ok (reduce_keepdims (nanquantile q') ax v)
          else Raise ValueError
      end
  end.

(** *** Broadcasting and three-dimensional arrays *)

Definition bdim (m n : nat) : option nat :=
  if m =? n then Some m
  else if m =? 1 then Some n
  else if n =? 1 then Some m
  else None.

Definition broadcast_shape (s t : shape4) : option shape4 :=
  let '(a, b, c, d) := s in
  let '(a', b', c', d') := t in
  match bdim a a', bdim b b', bdim c c', bdim d d' with
  | Some x, Some y, Some z, Some w => Some (x, y, z, w)
  | _, _, _, _ => None
  end.

(** An axis of length 1 is read at 0 whatever the index. *)
Definition bidx (n i : nat) : nat := if n =? 1 then 0 else i.

Definition bget (v : ndarray) (i j k l : nat) : float :=
  let '(a, b, c, d) := shape v in
  get v (bidx a i) (bidx b j) (bidx c k) (bidx d l).

(** [a op b] for two arrays, with numpy's broadcasting. *)
Definition broadcast2 (op : float -> float -> float) (a b : ndarray)
  : result ndarray :=
  match broadcast_shape (shape a) (shape b) with
  | Some s => Ok (build s (fun i j k l => op (bget a i j k l) (bget b i j k l)))
  | None => Raise ValueError
  end.

Definition shape3_t : Type := (nat * nat * nat)%type.

Record ndarray3 : Type := mk_ndarray3 {
  shape3 : shape3_t;
  data3 : list (list (list float))
}.

Definition build3_data (s : shape3_t) (g : nat -> nat -> nat -> float)
  : list (list (list float)) :=
  let '(nr, nc, nd) := s in
  map (fun i => map (fun j => map (fun l => g i j l) (seq 0 nd)) (seq 0 nc))
      (seq 0 nr).

Definition build3 (s : shape3_t) (g : nat -> nat -> nat -> float) : ndarray3 :=
  {| shape3 := s; data3 := build3_data s g |}.

Definition get3 (v : ndarray3) (i j l : nat) : float :=
  nth l (nth j (nth i (data3 v) []) []) nan.

Definition bget3 (v : ndarray3) (i j l : nat) : float :=
  let '(a, b, d) := shape3 v in get3 v (bidx a i) (bidx b j) (bidx d l).

Definition broadcast_shape3 (s t : shape3_t) : option shape3_t :=
  let '(a, b, d) := s in
  let '(a', b', d') := t in
  match bdim a a', bdim b b', bdim d d' with
  | Some x, Some y, Some w => Some (x, y, w)
  | _, _, _ => None
  end.

Definition broadcast3 (op : float -> float -> float) (a b : ndarray3)
  : result ndarray3 :=
  match broadcast_shape3 (shape3 a) (shape3 b) with
  | Some s => Ok (build3 s (fun i j l => op (bget3 a i j l) (bget3 b i j l)))
  | None => Raise ValueError
  end.

(** [f(values, axis=-2)]: the origin axis is reduced and dropped. *)
Definition reduce_origin (f : list float -> float) (v : ndarray) : ndarray3 :=
  let '(nr, nc, _, nd) := shape v in
  build3 (nr, nc, nd) (fun i j l => f (lane v 2 i j 0 l)).

(** [np.repeat(np.expand_dims(y, -2), n, -2)] *)
Definition expand_repeat_origin (y : ndarray3) (n : nat) : ndarray :=
  let '(nr, nc, nd) := shape3 y in
  build (nr, nc, n, nd) (fun i j _ l => get3 y i j l).

End Np.

(** ** pandas: grouping the rows of a frame *)

Module Pd.

(** Lexicographic order on key tuples, componentwise by [String.compare]. *)
Fixpoint key_compare (a b : list string) : comparison :=
  match a, b with
  | [], [] => Eq
  | [], _ :: _ => Lt
  | _ :: _, [] => Gt
  | x :: a', y :: b' =>
      match String.compare x y with
      | Eq => key_compare a' b'
      | c => c
      end
  end.

Definition groups_t : Type := list (list string * list nat).

(** Row [i], of key [k], joins the group of [k]; the groups are kept in
    ascending key order and each group lists its rows in row order. *)
Fixpoint group_insert (k : list string) (i : nat) (gs : groups_t) : groups_t :=
  match gs with
  | [] => [(k, [i])]
  | (k', rows) :: r =>
      match key_compare k k' with
      | Lt => (k, [i]) :: gs
      | Eq => (k', rows ++ [i]) :: r
      | Gt => (k', rows) :: group_insert k i r
      end
  end.

Definition group_rows (keys : list (list string)) : groups_t :=
  fold_left (fun gs ik => group_insert (snd ik) (fst ik) gs)
            (combine (seq 0 (length keys)) keys) [].

Fixpoint column_position (columns : list string) (name : string) : result nat :=
  match columns with
  | [] => Raise KeyError
  | c :: r => if String.eqb c name then Ok 0
              else p <- column_position r name ;; Ok (S p)
  end.

(** [frame.groupby(by)] with pandas' default [sort=True], for a frame with
    the given column names and rows: [.groups] and [.indices] both list the
    groups in ascending key order. *)
Definition groupby (columns : list string) (rows : list (list string))
  (by_ : list string) : result groups_t :=
  match by_ with
  | [] => Raise ValueError
  | _ =>
      ps <- mapM (column_position columns) by_ ;;
      Ok (group_rows (map (fun row => map (fun p => nth p row EmptyString) ps) rows))
  end.

(** [fillna(0)] on one cell. *)
Definition fillna0 (x : float) : float := if is_nan x then 0%float else x.

End Pd.

(** ** The triangle and its pandas-style methods (core/pandas.py) *)

Module Core.

Import Np.

Inductive label : Type :=
| Name (s : string)
| Num (z : Z).

(** The triangle: the 4D [values] and the labels of its four axes.  Dates
    and periods are timestamps. *)
Record Triangle : Type := mk_Triangle {
  values : ndarray;
  kdims : list (list string);
  key_labels : list string;
  vdims : list label;
  odims : list Z;
  ddims : list Z;
  valuation_date : Z
}.

Definition set_values (t : Triangle) (v : ndarray) : Triangle :=
  mk_Triangle v (kdims t) (key_labels t) (vdims t) (odims t) (ddims t)
              (valuation_date t).

Definition set_kdims (t : Triangle) (k : list (list string)) : Triangle :=
  mk_Triangle (values t) k (key_labels t) (vdims t) (odims t) (ddims t)
              (valuation_date t).

Definition set_key_labels (t : Triangle) (k : list string) : Triangle :=
  mk_Triangle (values t) (kdims t) k (vdims t) (odims t) (ddims t)
              (valuation_date t).

Definition set_vdims (t : Triangle) (v : list label) : Triangle :=
  mk_Triangle (values t) (kdims t) (key_labels t) v (odims t) (ddims t)
              (valuation_date t).

Definition set_odims (t : Triangle) (o : list Z) : Triangle :=
  mk_Triangle (values t) (kdims t) (key_labels t) (vdims t) o (ddims t)
              (valuation_date t).

Definition set_ddims (t : Triangle) (d : list Z) : Triangle :=
  mk_Triangle (values t) (kdims t) (key_labels t) (vdims t) (odims t) d
              (valuation_date t).

(** [self.shape] is the shape of [values]. *)
Definition tri_shape (t : Triangle) : shape4 := shape (values t).

(** Modelled from the spec: [num_to_nan] of the triangle base class, which
    is not in core/pandas.py.  "cells that are exactly zero as an artifact
    of the reduction over an all-NaN slice are converted back to NaN"; "the
    source infers this purely from value-equality to zero". *)
Definition num_to_nan_cell (x : float) : float :=
  if (x =? 0)%float then nan else x.

Definition num_to_nan (t : Triangle) : Triangle :=
  set_values t (map4 num_to_nan_cell (values t)).

(** Modelled from the spec: the positional row selection [iloc[rows]] of the
    triangle base class, which is not in core/pandas.py.  "reduces that
    group's rows": the rows at the given positions of axis 0, with their
    keys, the other three axes untouched. *)
Definition iloc (t : Triangle) (rows : list nat) : Triangle :=
  let '(_, nc, no, nd) := tri_shape t in
  set_kdims
    (set_values t {| shape := (length rows, nc, no, nd);
                     data := map (fun i => nth i (data (values t)) []) rows |})
    (map (fun i => nth i (kdims t) []) rows).

(** [_set_slicers] of the triangle base class rebuilds the [iloc] and [loc]
    indexers of the object; the values and the labels stay as they are. *)
Definition _set_slicers (t : Triangle) : Triangle := t.

(** *** [_get_axis] *)

Inductive axis_arg : Type :=
| AxInt (z : Z)
| AxStr (s : string).

Definition axis_arg_eqb (a b : axis_arg) : bool :=
  match a, b with
  | AxInt x, AxInt y => Z.eqb x y
  | AxStr x, AxStr y => String.eqb x y
  | _, _ => false
  end.

Fixpoint dict_get {V : Type} (d : list (axis_arg * V)) (key : axis_arg)
  (default : V) : V :=
  match d with
  | [] => default
  | (k, v) :: r => if axis_arg_eqb k key then v else dict_get r key default
  end.

Definition ax : list (axis_arg * nat) :=
  [(AxInt 0, 0); (AxInt 1, 1); (AxInt 2, 2); (AxInt 3, 3)]
  ++ [(AxInt (-1), 3); (AxInt (-2), 2); (AxInt (-3), 1); (AxInt (-4), 0)]
  ++ [(AxStr "index", 0); (AxStr "columns", 1); (AxStr "origin", 2);
      (AxStr "development", 3)].

Definition _get_axis (axis : axis_arg) : nat := dict_get ax axis 0.

(** *** [add_triangle_agg_func] *)

Inductive agg_result : Type :=
| Scalar (x : float)
| Tri (t : Triangle).

(** The keyword arguments a caller may pass: [auto_sparse], popped by
    [agg_func], and [q], passed on to the numpy function. *)
Record kwargs : Type := mk_kwargs {
  kw_auto_sparse : option bool;
  kw_q : option float
}.

Definition no_kwargs : kwargs := mk_kwargs None None.

(** [min([num for num, _ in enumerate(shape) if _ != 1])] *)
Definition default_axis (s : shape4) : result nat :=
  match filter (fun num => negb (dim num s =? 1)) (seq 0 4) with
  | [] => Raise ValueError
  | n :: r => Ok (fold_left Nat.min r n)
  end.

(** The method registered for the numpy function named [v].  A triangle is
    a value here: [obj = self.copy()] is [self], and [self] is not touched. *)
Definition agg_func (v : string) (self : Triangle) (axis : option axis_arg)
  (kw : kwargs) : result agg_result :=
  let obj := self in
  let auto_sparse :=
    match kw_auto_sparse kw with Some b => b | None => true end in
  axis <- match axis with
          | None => default_axis (tri_shape obj)
          | Some a => Ok (_get_axis a)
          end ;;
  func <- getattr v ;;
  vals <- call func (values obj) axis (kw_q kw) ;;
  let obj := set_values obj vals in
  let obj :=
    if (axis =? 0) && (dim axis (tri_shape obj) =? 1)
    then set_kdims obj [repeat "(All)"%string (length (key_labels obj))]
    else obj in
  let obj :=
    if (axis =? 1) && (dim axis (tri_shape obj) =? 1)
    then set_vdims obj [Num 0]
    else obj in
  let obj :=
    if (axis =? 2) && (dim axis (tri_shape obj) =? 1)
    then set_odims obj (firstn 1 (odims obj))
    else obj in
  let obj :=
    if (axis =? 3) && (dim axis (tri_shape obj) =? 1)
    then set_ddims obj [valuation_date self]
    else obj in
  let obj := if auto_sparse then _set_slicers obj else obj in
  let obj := num_to_nan obj in
  if shape_eqb (tri_shape obj) (1, 1, 1, 1)
  then Ok (Scalar (get (values obj) 0 0 0 0))
  else Ok (Tri obj).

(** The registration loop at the end of the module. *)
Definition agg_func_names : list string :=
  ["sum"; "mean"; "median"; "max"; "min"; "prod"; "var"]%string
  ++ ["std"; "cumsum"; "quantile"]%string.

Definition agg_funcs : list (string * string) :=
  map (fun item => (item, ("nan" ++ item)%string)) agg_func_names
  ++ map (fun item => (item, item)) ["diff"%string].

Fixpoint lookup (k : string) (d : list (string * string)) : option string :=
  match d with
  | [] => None
  | (k', v) :: r => if String.eqb k' k then Some v else lookup k r
  end.

(** [getattr(triangle, k)(axis, **kw)] for a registered method name [k]. *)
Definition Triangle_method (k : string) (self : Triangle)
  (axis : option axis_arg) (kw : kwargs) : result agg_result :=
  match lookup k agg_funcs with
  | Some v => agg_func v self axis kw
  | None => Raise AttributeError
  end.

(** *** [TriangleGroupBy] and [add_groupby_agg_func] *)

Inductive by_arg : Type :=
| ByStr (s : string)
| ByList (l : list string).

Record TriangleGroupBy : Type := mk_TriangleGroupBy {
  obj : Triangle;
  by_ : list string;
  groups : Pd.groups_t
}.

(** [TriangleGroupBy.__init__]; [obj.index] is the frame of the row keys,
    with [key_labels] as its column names. *)
Definition TriangleGroupBy_init (o : Triangle) (b : by_arg)
  : result TriangleGroupBy :=
  let bl := match b with ByStr s => [s] | ByList l => l end in
  g <- Pd.groupby (key_labels o) (kdims o) bl ;;
  Ok (mk_TriangleGroupBy o bl g).

(** [groupby(by)]: the frame of [to_frame()] is grouped with the extra
    arguments only, and [by] is not one of them; without extra arguments
    pandas refuses, and the handler builds the group-by object. *)
Definition groupby (self : Triangle) (b : by_arg) : result TriangleGroupBy :=
  TriangleGroupBy_init self b.

(** The method [k] of a group-by object; it returns [self.obj], rebound to
    the aggregated triangle.  [v] is the registered operation; the array
    backend is left out, so [set_backend] changes nothing. *)
Definition groupby_agg_func (k v : string) (self : TriangleGroupBy)
  : result TriangleGroupBy :=
  vals <- mapM (fun i =>
            r <- Triangle_method "sum" (iloc (obj self) i)
                   (Some (AxInt 0)) (mk_kwargs (Some false) None) ;;
            match r with
            | Scalar _ => Raise AttributeError
            | Tri t => Ok (values t)
            end) (map snd (groups self)) ;;
  v' <- concatenate0 vals ;;
  let o := set_values (obj self) v' in
  let o := set_key_labels o (by_ self) in
  let o := set_kdims o (map fst (groups self)) in
  Ok (mk_TriangleGroupBy o (by_ self) (groups self)).

Definition TriangleGroupBy_method (k : string) (self : TriangleGroupBy)
  : result TriangleGroupBy :=
  if existsb (String.eqb k) agg_func_names
  then groupby_agg_func k k self
  else Raise AttributeError.

(** [triangle.groupby(by).k()] *)
Definition groupby_aggregate (t : Triangle) (b : by_arg) (k : string)
  : result Triangle :=
  g <- groupby t b ;;
  g' <- TriangleGroupBy_method k g ;;
  Ok (obj g').

(** *** [to_frame] *)

Inductive date_label : Type :=
| Period (z : Z)
| Timestamp (z : Z)
| Development (z : Z).

Inductive index_t : Type :=
| MultiIndex (names : list string) (rows : list (list string))
| KeyArray (rows : list (list string))
| LabelIndex (l : list label)
| DateIndex (l : list date_label).

Definition index_length (ix : index_t) : nat :=
  match ix with
  | MultiIndex _ rows => length rows
  | KeyArray rows => length rows
  | LabelIndex l => length l
  | DateIndex l => length l
  end.

Inductive Frame : Type :=
| Series (index : index_t) (cells : list float)
| DataFrame (index columns : index_t) (cells : list (list float)).

(** Modelled from the spec: [_repr_date_axes] of the triangle base class,
    which is not in core/pandas.py.  "origin-axis labels optionally
    convertible from period-form to absolute-timestamp form when
    requested"; the development labels are passed through. *)
Definition _repr_date_axes (self : Triangle) (origin_as_datetime : bool)
  : list date_label * list date_label :=
  (map (if origin_as_datetime then Timestamp else Period) (odims self),
   map Development (ddims self)).

(** Modelled from the spec: [_repr_format] of the triangle base class, which
    is not in core/pandas.py.  "produce a 1D or 2D labeled tabular
    structure": the origin by development table of the single row and
    column, cells as they are. *)
Definition _repr_format (self : Triangle) (origin_as_datetime : bool) : Frame :=
  let '(od, dd) := _repr_date_axes self origin_as_datetime in
  let s := tri_shape self in
  DataFrame (DateIndex od) (DateIndex dd)
    (map (fun k => map (fun l => get (values self) 0 0 k l) (seq 0 (dim 3 s)))
         (seq 0 (dim 2 s))).

Definition get_at (v : ndarray) (ix : nat * nat * nat * nat) : float :=
  let '(a, b, c, d) := ix in get v a b c d.

Definition put_axis (ax t : nat) (ix : nat * nat * nat * nat)
  : nat * nat * nat * nat :=
  let '(a, b, c, d) := ix in at_axis ax t a b c d.

(** [np.squeeze(values)] when [a0] is the only axis longer than 1, and when
    [a0 < a1] are the only two. *)
Definition squeeze1 (v : ndarray) (a0 : nat) : list float :=
  map (fun p => get_at v (put_axis a0 p (0, 0, 0, 0)))
      (seq 0 (dim a0 (shape v))).

Definition squeeze2 (v : ndarray) (a0 a1 : nat) : list (list float) :=
  map (fun p =>
         map (fun q => get_at v (put_axis a1 q (put_axis a0 p (0, 0, 0, 0))))
             (seq 0 (dim a1 (shape v))))
      (seq 0 (dim a0 (shape v))).

(** [pd.Series(tri, index=idx)], [pd.DataFrame(tri, index=idx, columns=cols)]
    refuse labels whose number is not that of the data. *)
Definition pd_Series (cells : list float) (idx : index_t) : result Frame :=
  if index_length idx =? length cells then Ok (Series idx cells)
  else Raise ValueError.

Definition pd_DataFrame (cells : list (list float)) (idx cols : index_t)
  : result Frame :=
  if (index_length idx =? length cells)
     && forallb (fun row => index_length cols =? length row) cells
  then Ok (DataFrame idx cols cells)
  else Raise ValueError.

Definition frame_fillna0 (f : Frame) : Frame :=
  match f with
  | Series idx cells => Series idx (map Pd.fillna0 cells)
  | DataFrame idx cols cells => DataFrame idx cols (map (map Pd.fillna0) cells)
  end.

(** [to_frame(origin_as_datetime=...)].  An axis of length 0 leaves
    [np.squeeze] with more dimensions than the frame constructors take. *)
Definition to_frame (self : Triangle) (kw_origin_as_datetime : option bool)
  : result Frame :=
  let s := tri_shape self in
  let axes := filter (fun num => 1 <? dim num s) (seq 0 4) in
  let origin_as_datetime :=
    match kw_origin_as_datetime with Some b => b | None => false end in
  if (dim 0 s =? 1) && (dim 1 s =? 1)
  then Ok (_repr_format self origin_as_datetime)
  else if (length axes =? 1) || (length axes =? 2)
  then
    let '(od, dd) := _repr_date_axes self origin_as_datetime in
    let axes_lookup (n : nat) :=
      match n with
      | 0 => KeyArray (kdims self)
      | 1 => LabelIndex (vdims self)
      | 2 => DateIndex od
      | _ => DateIndex dd
      end in
    let a0 := nth 0 axes 0 in
    let idx := if a0 =? 0 then MultiIndex (key_labels self) (kdims self)
               else axes_lookup a0 in
    if existsb (fun num => dim num s =? 0) (seq 0 4) then Raise ValueError
    else if length axes =? 2
    then
      f <- pd_DataFrame (squeeze2 (values self) a0 (nth 1 axes 0)) idx
                        (axes_lookup (nth 1 axes 0)) ;;
      Ok (frame_fillna0 f)
    else
      f <- pd_Series (squeeze1 (values self) a0) idx ;;
      Ok (frame_fillna0 f)
  else Raise ValueError.

(** *** Objects, and [astype] *)

(** A triangle object: the triangle and the attributes an estimator's
    [transform] attaches to it. *)
Record Object : Type := mk_Object {
  this : Triangle;
  attr_cdf_ : option Triangle;
  attr_ldf_ : option Triangle;
  attr_sigma_ : option Triangle;
  attr_std_err_ : option Triangle;
  attr_incremental_ : option Triangle
}.

Definition new_Object (t : Triangle) : Object :=
  mk_Object t None None None None None.

Definition set_this (o : Object) (t : Triangle) : Object :=
  mk_Object t (attr_cdf_ o) (attr_ldf_ o) (attr_sigma_ o) (attr_std_err_ o)
            (attr_incremental_ o).

(** The store of objects; a reference is a position in it. *)
Definition heap : Type := list Object.
Definition ref : Type := nat.

Definition deref (h : heap) (r : ref) : result Object :=
  match nth_error h r with
  | Some o => Ok o
  | None => Raise AttributeError
  end.

Fixpoint store (h : heap) (r : ref) (o : Object) : heap :=
  match h, r with
  | [], _ => []
  | _ :: h', 0 => o :: h'
  | x :: h', S r' => x :: store h' r' o
  end.

Definition alloc (h : heap) (o : Object) : heap * ref :=
  (h ++ [o], length h).

(** Modelled from the spec: [copy] of the triangle base class, which is not
    in core/pandas.py.  "every method in scope returns a new Triangle
    Tensor ... rather than mutating in place": a new object with the
    contents of the old one. *)
Definition copy (h : heap) (self : ref) : result (heap * ref) :=
  o <- deref h self ;; Ok (alloc h o).

Inductive pyval : Type :=
| PyBool (b : bool)
| PyInt (z : Z)
| PyNone.

(** [v is True] *)
Definition is_True (v : pyval) : bool :=
  match v with
  | PyBool true => true
  | _ => false
  end.

(** [astype(dtype, inplace)]; a dtype is given by its conversion of one
    cell.  The result is the new store and the reference returned. *)
Definition astype (h : heap) (self : ref) (dtype : float -> float)
  (inplace : pyval) : result (heap * ref) :=
  hr <- (if is_True inplace then copy h self else Ok (h, self)) ;;
  let '(h1, r) := hr in
  o <- deref h1 r ;;
  Ok (store h1 r (set_this o (set_values (this o) (map4 dtype (values (this o))))),
      r).

End Core.

(** ** The incremental additive method (development/incremental.py) *)

Module Incremental.

Import Np Core.

Record IncrementalAdditive : Type := mk_IncrementalAdditive {
  trend : float;
  n_periods : Z;
  average : string;
  ldf_ : option Triangle;
  incremental_ : option Triangle
}.

(** [__init__(trend=0.0, n_periods=-1, average='volume')] *)
Definition init (trend : float) (n_periods : Z) (average : string)
  : IncrementalAdditive :=
  mk_IncrementalAdditive trend n_periods average None None.

(** The averaging step of [fit]: [y_] from the weights [w_], the trended
    incremental triangle [x.triangle], [sample_weight.triangle] and
    [len(x.odims)].  [y_] stays unbound when [average] is neither name. *)
Definition fit_y_ (average : string) (w_ x_triangle sw_triangle : ndarray)
  (n_odims : nat) : result ndarray :=
  y1 <- (if String.eqb average "simple"
         then wx <- broadcast2 PrimFloat.mul w_ x_triangle ;;
              Ok (Some (reduce_origin nanmean wx))
         else Ok None) ;;
  y2 <- (if String.eqb average "volume"
         then wx <- broadcast2 PrimFloat.mul w_ x_triangle ;;
              wxs <- broadcast2 PrimFloat.mul wx sw_triangle ;;
              let y := reduce_origin nansum wxs in
              ws <- broadcast2 PrimFloat.mul w_ sw_triangle ;;
              y' <- broadcast3 PrimFloat.div y (reduce_origin nansum ws) ;;
              Ok (Some y')
         else Ok y1) ;;
  match y2 with
  | None => Raise NameError
  | Some y => Ok (expand_repeat_origin y n_odims)
  end.

(** Modelled from the spec: the [cdf_] property of the development base
    class, which is not in development/incremental.py.  "cumulative
    development factors, the running product of ldf from latest development
    period backward". *)
Definition cdf_of_ldf (l : Triangle) : Triangle :=
  let v := values l in
  set_values l
    (build (shape v)
       (fun i j k d =>
          np_prod (map (fun t => get v i j k t)
                       (seq d (dim 3 (shape v) - d))))).

Definition cdf_ (self : IncrementalAdditive) : option Triangle :=
  option_map cdf_of_ldf (ldf_ self).

(** Modelled from the spec: the product of a triangle and a number, of the
    triangle base class: cell by cell on [values], labels kept. *)
Definition tri_mul (t : Triangle) (c : float) : Triangle :=
  set_values t (map4 (fun x => (x * c)%float) (values t)).

Definition getattr_fitted (a : option Triangle) : result Triangle :=
  match a with
  | Some t => Ok t
  | None => Raise AttributeError
  end.

(** [transform(X)]: [X] is changed in the store and returned. *)
Definition transform (self : IncrementalAdditive) (h : heap) (X : ref)
  : result (heap * ref) :=
  o <- deref h X ;;
  cdf <- getattr_fitted (cdf_ self) ;;
  ldf <- getattr_fitted (ldf_ self) ;;
  inc <- getattr_fitted (incremental_ self) ;;
  Ok (store h X
        (mk_Object (this o) (Some cdf) (Some ldf) (Some (tri_mul cdf 0%float))
                   (Some (tri_mul cdf 0%float)) (Some inc)),
      X).

End Incremental.

(** ** Vocabulary of the properties *)

Module Terms.

Import Np Core Incremental.

Local Open Scope string_scope.

(** The reducer a numpy function applies to each slice, when the call is
    accepted. *)
Definition reducer_of (f : func) (q : option float)
  : option (list float -> float) :=
  match f, q with
  | f_nansum, None => Some nansum
  | f_nanmean, None => Some nanmean
  | f_nanmedian, None => Some nanmedian
  | f_nanmax, None => Some nanmax
  | f_nanmin, None => Some nanmin
  | f_nanprod, None => Some nanprod
  | f_nanvar, None => Some nanvar
  | f_nanstd, None => Some nanstd
  | f_nanquantile, Some q' => Some (nanquantile q')
  | _, _ => None
  end.

Definition all_nan (xs : list float) : Prop := Forall (fun x => is_nan x = true) xs.

(** The axis [agg_func] reduces along. *)
Definition resolve_axis (self : Triangle) (axis : option axis_arg) : result nat :=
  match axis with
  | None => default_axis (tri_shape self)
  | Some a => Ok (_get_axis a)
  end.

(** The cell [(i,j,k,l)] of what [agg_func] returns. *)
Definition result_cell (r : agg_result) (i j k l : nat) : float :=
  match r with
  | Scalar x => x
  | Tri t => get (values t) i j k l
  end.

Definition result_shape (r : agg_result) : shape4 :=
  match r with
  | Scalar _ => (1, 1, 1, 1)
  | Tri t => tri_shape t
  end.

(** Four entities of one column, one origin and two valuations; the line
    of the rows is B, A, B, A and the last row has no observation. *)
Definition four_rows : Triangle :=
  mk_Triangle
    (array [[[[1; 2]]]; [[[3; 6]]]; [[[10; nan]]]; [[[nan; nan]]]]%float)
    [["B"]; ["A"]; ["B"]; ["A"]] ["line"] [Name "paid"]
    [2000%Z] [2000%Z; 2001%Z] 2001%Z.

(** A triangle of shape (1,1,1,1) holding 5. *)
Definition one_cell : Triangle :=
  mk_Triangle (array [[[[5]]]]%float) [["A"]] ["line"] [Name "paid"]
    [2000%Z] [2000%Z] 2000%Z.

(** The axis arguments [_get_axis] has an entry for. *)
Definition recognised (a : axis_arg) : bool :=
  existsb (fun k => axis_arg_eqb k a) (map fst ax).

Definition key_lt (a b : list string) : Prop := Pd.key_compare a b = Lt.

(** The rows of key [k] among [keys], in row order, numbered from [m]. *)
Fixpoint rows_from (m : nat) (k : list string) (keys : list (list string))
  : list nat :=
  match keys with
  | [] => []
  | x :: r =>
      ((if list_eq_dec string_dec x k then [m] else []) ++ rows_from (S m) k r)%list
  end.

Definition rows_with_key (k : list string) (keys : list (list string))
  : list nat :=
  rows_from 0 k keys.

(** What the groups are once the rows [pre] have been inserted. *)
Definition grouped (pre : list (list string)) (gs : Pd.groups_t) : Prop :=
  StronglySorted key_lt (map fst gs)
  /\ (forall k, In k (map fst gs) <-> In k pre)
  /\ (forall k rows, In (k, rows) gs -> rows = rows_with_key k pre).

(** The key of each row under the columns at positions [ps]. *)
Definition row_keys (t : Triangle) (ps : list nat) : list (list string) :=
  map (fun row => map (fun p => nth p row EmptyString) ps) (kdims t).

Definition by_list (b : by_arg) : list string :=
  match b with
  | ByStr s => [s]
  | ByList l => l
  end.

(** The distinct keys in the order in which they first appear. *)
Definition first_seen (keys : list (list string)) : list (list string) :=
  fold_left (fun acc k =>
               if in_dec (list_eq_dec string_dec) k acc then acc
               else (acc ++ [k])%list)
            keys [].

Definition component (ax : nat) (ix : nat * nat * nat * nat) : nat :=
  let '(i, j, k, l) := ix in
  match ax with
  | 0 => i
  | 1 => j
  | 2 => k
  | _ => l
  end.

(** The cell of a frame at row [p] (and column [q] of a table). *)
Definition frame_cell (f : Frame) (p q : nat) : float :=
  match f with
  | Series _ cells => nth p cells nan
  | DataFrame _ _ cells => nth q (nth p cells []) nan
  end.

(** The axes longer than 1, as [to_frame] lists them. *)
Definition long_axes (s : shape4) : list nat :=
  filter (fun num => (1 <? dim num s)%nat) (seq 0 4).

(** The object [o] with its values cast. *)
Definition cast_object (dtype : float -> float) (o : Object) : Object :=
  set_this o (set_values (this o) (map4 dtype (values (this o)))).

(** Link ratios of one row and one origin over three development lags, and
    an estimator fitted with them. *)
Definition some_ldf : Triangle :=
  mk_Triangle (array [[[[2; 1.5; 1]]]]%float) [["A"]] ["line"] [Name "paid"]
    [2000%Z] [12%Z; 24%Z; 36%Z] 2002%Z.

Definition some_incremental : Triangle :=
  mk_Triangle (array [[[[10; 8; 2]]]]%float) [["A"]] ["line"] [Name "paid"]
    [2000%Z] [12%Z; 24%Z; 36%Z] 2002%Z.

Definition fitted : IncrementalAdditive :=
  mk_IncrementalAdditive 0%float (-1)%Z "volume" (Some some_ldf)
    (Some some_incremental).

(** The average the spec words: over the origins [o] of one row, column
    and development lag, the NaN-skipping sum of [w * x * sample_weight]
    over the NaN-skipping sum of [w * sample_weight]. *)
Definition volume_average (w x sw : ndarray) (i j l : nat) : float :=
  let origins := seq 0 (dim 2 (shape x)) in
  (nansum (map (fun o => get w i j o l * get x i j o l * bget sw i j o l)
               origins)
   / nansum (map (fun o => get w i j o l * bget sw i j o l) origins))%float.

(** Incremental loss ratios of three origins at three development lags,
    their weights, and an exposure per origin. *)
Definition some_x : ndarray :=
  array [[[[10; 8; 2]; [12; 6; nan]; [14; nan; nan]]]]%float.

Definition some_w : ndarray :=
  array [[[[1; 1; 1]; [1; 1; nan]; [1; nan; nan]]]]%float.

Definition some_exposure : ndarray :=
  array [[[[1]; [1]; [2]]]]%float.

End Terms.

(** ** More of core/pandas.py: [head], [tail], [drop], [rename] *)

Module CoreMore.

Import Np Core.

(** A bound of a Python slice over a sequence of [len] items: a negative
    bound counts from the end, and the result is kept within [0, len]. *)
Definition slice_bound (v : Z) (len : nat) : nat :=
  if (v <? 0)%Z then Z.to_nat (Z.max 0 (v + Z.of_nat len))
  else Nat.min (Z.to_nat v) len.

(** The positions [start:stop] selects among [len] rows. *)
Definition slice_rows (start stop : option Z) (len : nat) : list nat :=
  let a := match start with Some v => slice_bound v len | None => 0 end in
  let b := match stop with Some v => slice_bound v len | None => len end in
  seq a (b - a).

(** [head(n)] is [self.iloc[:n]]. *)
Definition head (self : Triangle) (n : Z) : Triangle :=
  iloc self (slice_rows None (Some n) (dim 0 (tri_shape self))).

(** [tail(n)] is [self.iloc[-n:]]. *)
Definition tail (self : Triangle) (n : Z) : Triangle :=
  iloc self (slice_rows (Some (- n)%Z) None (dim 0 (tri_shape self))).

Definition label_eqb (a b : label) : bool :=
  match a, b with
  | Name x, Name y => String.eqb x y
  | Num x, Num y => Z.eqb x y
  | _, _ => false
  end.

Fixpoint label_position (columns : list label) (c : label) : result nat :=
  match columns with
  | [] => Raise KeyError
  | x :: r => if label_eqb x c then Ok 0
              else p <- label_position r c ;; Ok (S p)
  end.

(** Modelled from the spec: the selection of columns by name,
    [self[[names]]], of the triangle base class, which is not in
    core/pandas.py ("slicing/indexing by label"): the named columns of
    axis 1, in the order asked for; an unknown name is a [KeyError]. *)
Definition getitem_columns (self : Triangle) (names : list label)
  : result Triangle :=
  ps <- mapM (label_position (vdims self)) names ;;
  let v := values self in
  let '(nr, _, no, nd) := shape v in
  Ok (set_vdims
        (set_values self
           (build (nr, length ps, no, nd)
                  (fun i j k l => get v i (nth j ps 0) k l)))
        names).

(** What [labels] of [drop] may be: left out, one string, or a list. *)
Inductive labels_arg : Type :=
| LabelsNone
| LabelsStr (s : string)
| LabelsList (l : list label).

(** [item in labels]: membership in a list, occurrence in a string (of a
    string only), and a [TypeError] in [None]. *)
Definition py_in (item : label) (labels : labels_arg) : result bool :=
  match labels with
  | LabelsNone => Raise TypeError
  | LabelsStr s =>
      match item with
      | Name x => Ok (match String.index 0 x s with Some _ => true | None => false end)
      | Num _ => Raise TypeError
      end
  | LabelsList l => Ok (existsb (label_eqb item) l)
  end.

(** [[item for item in columns if item not in labels]] *)
Fixpoint columns_not_in (columns : list label) (labels : labels_arg)
  : result (list label) :=
  match columns with
  | [] => Ok []
  | item :: r =>
      b <- py_in item labels ;;
      keep <- columns_not_in r labels ;;
      Ok (if b then keep else item :: keep)
  end.

(** [drop(labels, axis)] *)
Definition drop (self : Triangle) (labels : labels_arg) (axis : axis_arg)
  : result Triangle :=
  if axis_arg_eqb axis (AxInt 1)
  then keep <- columns_not_in (vdims self) labels ;;
       getitem_columns self keep
  else Raise NotImplementedError.

(** [rename(axis, value)], on an object of the store; [self] is changed in
    place and returned.  The four label setters belong to the triangle base
    class, not to core/pandas.py, and are taken as they come. *)
Section Rename.

Variable set_index set_columns set_origin set_development :
  Triangle -> list string -> result Triangle.

Inductive value_arg : Type :=
| ValueStr (s : string)
| ValueList (l : list string).

Definition rename (h : heap) (self : ref) (axis : axis_arg) (value : value_arg)
  : result (heap * ref) :=
  let value := match value with ValueStr s => [s] | ValueList l => l end in
  o <- deref h self ;;
  let t := this o in
  t <- (if axis_arg_eqb axis (AxStr "index") || axis_arg_eqb axis (AxInt 0)
        then set_index t value else Ok t) ;;
  t <- (if axis_arg_eqb axis (AxStr "columns") || axis_arg_eqb axis (AxInt 1)
        then set_columns t value else Ok t) ;;
  t <- (if axis_arg_eqb axis (AxStr "origin") || axis_arg_eqb axis (AxInt 2)
        then set_origin t value else Ok t) ;;
  t <- (if axis_arg_eqb axis (AxStr "development") || axis_arg_eqb axis (AxInt 3)
        then set_development t value else Ok t) ;;
  Ok (store h self (set_this o t), self).

End Rename.

End CoreMore.

(** ** More of [fit]: the exponents of the trend *)

Module Trend.

(** [np.arange(n)] *)
Definition arange (n : nat) : list Z := map Z.of_nat (seq 0 n).

(** [np.expand_dims(a, 0)], one row, and its transpose [.T], one column. *)
Definition expand_dims0 (a : list Z) : list (list Z) := [a].

Definition transpose (m : list (list Z)) : list (list Z) :=
  map (fun j => map (fun row => nth j row 0%Z) m)
      (seq 0 (length (hd [] m))).

(** [col - row] for a column of shape (n, 1) and a row of shape (1, m),
    broadcast to (n, m). *)
Definition sub_col_row (col row : list (list Z)) : list (list Z) :=
  map (fun c => map (fun r => (hd 0%Z c - r)%Z) (hd [] row)) col.

Definition np_abs (m : list (list Z)) : list (list Z) := map (map Z.abs) m.

(** [np.flip(m, 0)] *)
Definition flip0 (m : list (list Z)) : list (list Z) := rev m.

(** The exponents [(1 + trend)] is raised to in [fit], for [n] origins:
    [np.flip(np.abs(expand_dims(arange(n), 0).T - expand_dims(arange(n), 0)), 0)] *)
Definition trend_exponents (n : nat) : list (list Z) :=
  flip0 (np_abs (sub_col_row (transpose (expand_dims0 (arange n)))
                             (expand_dims0 (arange n)))).

End Trend.

(** ** More vocabulary *)

Module MoreTerms.

Import Np Core CoreMore.

(** The shape of the values is that of the labels. *)
Definition labelled (t : Triangle) : Prop :=
  tri_shape t
  = (length (kdims t), length (vdims t), length (odims t), length (ddims t)).

(** The rows of the values and the row keys are as many as the shape says. *)
Definition rows_ok (t : Triangle) : Prop :=
  length (data (values t)) = dim 0 (tri_shape t)
  /\ length (kdims t) = dim 0 (tri_shape t).

Definition is_scalar (r : agg_result) : bool :=
  match r with
  | Scalar _ => true
  | Tri _ => false
  end.

(** The axes [rename] has a branch for. *)
Definition renamed_axis (a : axis_arg) : bool :=
  existsb (axis_arg_eqb a)
    [AxStr "index"; AxInt 0; AxStr "columns"; AxInt 1;
     AxStr "origin"; AxInt 2; AxStr "development"; AxInt 3].

(** Three value columns over two rows. *)
Definition three_columns : Triangle :=
  mk_Triangle
    (array [[[[1]]; [[2]]; [[3]]]; [[[4]]; [[5]]; [[6]]]]%float)
    [["A"%string]; ["B"%string]] ["line"%string]
    [Name "paid"; Name "incurred"; Num 0]
    [2000%Z] [2000%Z] 2000%Z.

(** The reduction of the rows of one group, as [groupby_agg_func] runs it. *)
Definition group_sum (o : Triangle) (rows : list nat) : result ndarray :=
  r <- Triangle_method "sum"%string (iloc o rows) (Some (AxInt 0))
         (mk_kwargs (Some false) None) ;;
  match r with
  | Scalar _ => Raise AttributeError
  | Tri t => Ok (values t)
  end.

(** The plain average: over the origins of one row, column and development
    lag, the NaN-skipping mean of [w * x]. *)
Definition simple_average (w x : ndarray) (i j l : nat) : float :=
  nanmean (map (fun o => (get w i j o l * get x i j o l)%float)
               (seq 0 (dim 2 (shape x)))).

End MoreTerms.

(** * Properties *)

Example nansum_skips_nan : Np.nansum [nan; 1; 2.5]%float = 3.5%float.
Proof. reflexivity. Qed.

Example nansum_of_two_nan : Np.nansum [nan; nan]%float = 0%float.
Proof. reflexivity. Qed.

Example nanprod_of_two_nan : Np.nanprod [nan; nan]%float = 1%float.
Proof. reflexivity. Qed.

Example nanmean_ex : Np.nanmean [1; nan; 3]%float = 2%float.
Proof. reflexivity. Qed.

Example nanmedian_ex : Np.nanmedian [5; nan; 1; 3; 2]%float = 2.5%float.
Proof. reflexivity. Qed.

Example nanquantile_ex : Np.nanquantile 0.25 [4; nan; 0; 8; 12]%float = 3%float.
Proof. reflexivity. Qed.

Example nanstd_ex : Np.nanstd [1; nan; 3]%float = 1%float.
Proof. reflexivity. Qed.

Example nanmax_of_two_nan : is_nan (Np.nanmax [nan; nan]) = true.
Proof. reflexivity. Qed.

(** ** Arrays *)

Module NpFacts.

Import Np Terms.

Lemma nth_map_seq (A : Type) (f : nat -> A) (n i : nat) (d : A) :
  i < n -> nth i (map f (seq 0 n)) d = f i.
Proof.
  intros Hi.
  rewrite (nth_indep _ d (f 0)) by (rewrite length_map, length_seq; exact Hi).
  rewrite map_nth, seq_nth by exact Hi.
  reflexivity.
Qed.

Lemma get_build (s : shape4) (g : nat -> nat -> nat -> nat -> float)
  (i j k l : nat) :
  in_range s i j k l -> get (build s g) i j k l = g i j k l.
Proof.
  destruct s as [[[nr nc] no] nd]; simpl.
  intros (Hi & Hj & Hk & Hl).
  unfold get; simpl.
  rewrite (nth_map_seq _ _ _ _ _ Hi), (nth_map_seq _ _ _ _ _ Hj),
    (nth_map_seq _ _ _ _ _ Hk).
  apply nth_map_seq; exact Hl.
Qed.

Lemma nth_map_default (A B : Type) (f : A -> B) (xs : list A) (n : nat)
  (d : A) (e : B) :
  f d = e -> nth n (map f xs) e = f (nth n xs d).
Proof. intros <-. apply map_nth. Qed.

Lemma get_map4 (f : float -> float) (v : ndarray) (i j k l : nat) :
  f nan = nan -> get (map4 f v) i j k l = f (get v i j k l).
Proof.
  intros Hf. unfold get, map4; simpl.
  rewrite (nth_map_default _ _ (map (map (map f))) (data v) i [] []) by reflexivity.
  rewrite (nth_map_default _ _ (map (map f)) _ j [] []) by reflexivity.
  rewrite (nth_map_default _ _ (map f) _ k [] []) by reflexivity.
  apply nth_map_default; exact Hf.
Qed.

Lemma get_reduce_keepdims (f : list float -> float) (ax : nat) (v : ndarray)
  (i j k l : nat) :
  in_range (set_dim ax 1 (shape v)) i j k l ->
  get (reduce_keepdims f ax v) i j k l = f (lane v ax i j k l).
Proof. intros H. unfold reduce_keepdims. now rewrite get_build. Qed.

Lemma dim_set_dim (ax n : nat) (s : shape4) : dim ax (set_dim ax n s) = n.
Proof.
  destruct s as [[[nr nc] no] nd].
  destruct ax as [|[|[|ax]]]; reflexivity.
Qed.

Lemma shape_eqb_eq (s t : shape4) : shape_eqb s t = true <-> s = t.
Proof.
  destruct s as [[[a b] c] d], t as [[[a' b'] c'] d']; simpl.
  rewrite !andb_true_iff, !Nat.eqb_eq.
  split; [intros [[[-> ->] ->] ->]; reflexivity | intros [= -> -> -> ->]; auto].
Qed.

Lemma call_ok (f : func) (v : ndarray) (ax : nat) (q : option float)
  (r : ndarray) :
  call f v ax q = Ok r ->
  exists red, reducer_of f q = Some red /\ r = reduce_keepdims red ax v.
Proof.
  unfold call.
  destruct f, q as [q'|]; simpl; try discriminate;
    try (intros [= <-]; eexists; split; reflexivity).
  - destruct (dim ax (shape v) =? 0); [discriminate|].
    intros [= <-]; eexists; split; reflexivity.
  - destruct (dim ax (shape v) =? 0); [discriminate|].
    intros [= <-]; eexists; split; reflexivity.
  - destruct ((0 <=? q')%float && (q' <=? 1)%float); [|discriminate].
    intros [= <-]; eexists; split; reflexivity.
Qed.

Lemma call_shape (f : func) (v : ndarray) (ax : nat) (q : option float)
  (r : ndarray) :
  call f v ax q = Ok r -> shape r = set_dim ax 1 (shape v).
Proof. intros H. apply call_ok in H as (red & _ & ->). reflexivity. Qed.

(** *** Slices made of NaN only *)

Lemma all_nan_map_nan_to (d : float) (xs : list float) :
  all_nan xs -> map (nan_to d) xs = repeat d (length xs).
Proof.
  induction 1 as [|x xs Hx _ IH]; simpl; [reflexivity|].
  unfold nan_to at 1. rewrite Hx, IH. reflexivity.
Qed.

Lemma all_nan_filter (xs : list float) :
  all_nan xs -> filter not_nan xs = [].
Proof.
  induction 1 as [|x xs Hx _ IH]; simpl; [reflexivity|].
  unfold not_nan at 1. rewrite Hx. exact IH.
Qed.

Lemma fold_left_repeat_fixed (op : float -> float -> float) (d : float)
  (n : nat) :
  op d d = d -> fold_left op (repeat d n) d = d.
Proof.
  intros H. induction n as [|n IH]; simpl; [reflexivity|].
  rewrite H. exact IH.
Qed.

Lemma ufunc_reduce_repeat (op : float -> float -> float) (d : float) (n : nat) :
  op d d = d -> ufunc_reduce op d (repeat d n) = d.
Proof.
  intros H. destruct n as [|n]; simpl; [reflexivity|].
  apply fold_left_repeat_fixed; exact H.
Qed.

Lemma nansum_all_nan (xs : list float) : all_nan xs -> nansum xs = 0%float.
Proof.
  intros H. unfold nansum, np_sum. rewrite (all_nan_map_nan_to _ _ H).
  apply ufunc_reduce_repeat; reflexivity.
Qed.

Lemma nanprod_all_nan (xs : list float) : all_nan xs -> nanprod xs = 1%float.
Proof.
  intros H. unfold nanprod, np_prod. rewrite (all_nan_map_nan_to _ _ H).
  apply ufunc_reduce_repeat; reflexivity.
Qed.

Lemma nanmean_all_nan (xs : list float) : all_nan xs -> nanmean xs = nan.
Proof.
  intros H. unfold nanmean, count_valid.
  rewrite (nansum_all_nan _ H), (all_nan_filter _ H). reflexivity.
Qed.

Lemma nanvar_all_nan (xs : list float) : all_nan xs -> nanvar xs = nan.
Proof.
  intros H. unfold nanvar, count_valid. rewrite (all_nan_filter _ H). reflexivity.
Qed.

Lemma nanstd_all_nan (xs : list float) : all_nan xs -> nanstd xs = nan.
Proof. intros H. unfold nanstd. rewrite (nanvar_all_nan _ H). reflexivity. Qed.

Lemma nanmedian_all_nan (xs : list float) : all_nan xs -> nanmedian xs = nan.
Proof. intros H. unfold nanmedian. rewrite (all_nan_filter _ H). reflexivity. Qed.

Lemma nanquantile_all_nan (q : float) (xs : list float) :
  all_nan xs -> nanquantile q xs = nan.
Proof. intros H. unfold nanquantile. rewrite (all_nan_filter _ H). reflexivity. Qed.

Lemma fold_fmax_all_nan (xs : list float) (a : float) :
  is_nan a = true -> all_nan xs -> is_nan (fold_left fmax xs a) = true.
Proof.
  intros Ha H. revert a Ha.
  induction H as [|x xs Hx _ IH]; intros a Ha; simpl; [exact Ha|].
  apply IH. unfold fmax. rewrite Ha. exact Hx.
Qed.

Lemma fold_fmin_all_nan (xs : list float) (a : float) :
  is_nan a = true -> all_nan xs -> is_nan (fold_left fmin xs a) = true.
Proof.
  intros Ha H. revert a Ha.
  induction H as [|x xs Hx _ IH]; intros a Ha; simpl; [exact Ha|].
  apply IH. unfold fmin. rewrite Ha. exact Hx.
Qed.

Lemma nanmax_all_nan (xs : list float) : all_nan xs -> is_nan (nanmax xs) = true.
Proof.
  intros H. destruct H as [|x xs Hx H]; [reflexivity|].
  simpl. apply fold_fmax_all_nan; assumption.
Qed.

Lemma nanmin_all_nan (xs : list float) : all_nan xs -> is_nan (nanmin xs) = true.
Proof.
  intros H. destruct H as [|x xs Hx H]; [reflexivity|].
  simpl. apply fold_fmin_all_nan; assumption.
Qed.

(** Every reducer but [nanprod] sends an all-NaN slice to NaN or to 0. *)
Lemma reducer_all_nan (f : func) (q : option float)
  (red : list float -> float) (xs : list float) :
  reducer_of f q = Some red -> f <> f_nanprod -> all_nan xs ->
  is_nan (red xs) = true \/ red xs = 0%float.
Proof.
  intros Hr Hf H.
  destruct f, q as [q'|]; simpl in Hr; try discriminate;
    injection Hr as <-.
  - right; now apply nansum_all_nan.
  - left; now rewrite nanmean_all_nan.
  - left; now rewrite nanmedian_all_nan.
  - left; now apply nanmax_all_nan.
  - left; now apply nanmin_all_nan.
  - contradiction.
  - left; now rewrite nanvar_all_nan.
  - left; now rewrite nanstd_all_nan.
  - left; now rewrite nanquantile_all_nan.
Qed.

End NpFacts.

(** ** Reductions of a triangle *)

Module AggFacts.

Import Np Core Terms NpFacts.

Lemma if_same (c : bool) (o : Triangle) :
  (if c then _set_slicers o else o) = o.
Proof. destruct c; reflexivity. Qed.

Lemma shape_if_kdims (c : bool) (o : Triangle) (x : list (list string)) :
  tri_shape (if c then set_kdims o x else o) = tri_shape o.
Proof. destruct c; reflexivity. Qed.

Lemma shape_if_vdims (c : bool) (o : Triangle) (x : list label) :
  tri_shape (if c then set_vdims o x else o) = tri_shape o.
Proof. destruct c; reflexivity. Qed.

Lemma shape_if_odims (c : bool) (o : Triangle) (x : list Z) :
  tri_shape (if c then set_odims o x else o) = tri_shape o.
Proof. destruct c; reflexivity. Qed.

Lemma shape_if_ddims (c : bool) (o : Triangle) (x : list Z) :
  tri_shape (if c then set_ddims o x else o) = tri_shape o.
Proof. destruct c; reflexivity. Qed.

Lemma agg_func_inv (v : string) (self : Triangle) (axis : option axis_arg)
  (kw : kwargs) (res : agg_result) :
  agg_func v self axis kw = Ok res ->
  exists (ax : nat) (f : func) (vals : ndarray) (o : Triangle),
    resolve_axis self axis = Ok ax
    /\ getattr v = Ok f
    /\ call f (values self) ax (kw_q kw) = Ok vals
    /\ values o = map4 num_to_nan_cell vals
    /\ key_labels o = key_labels self
    /\ kdims o = (if (ax =? 0) && (dim ax (shape vals) =? 1)
                  then [repeat "(All)"%string (length (key_labels self))]
                  else kdims self)
    /\ vdims o = (if (ax =? 1) && (dim ax (shape vals) =? 1)
                  then [Num 0] else vdims self)
    /\ odims o = (if (ax =? 2) && (dim ax (shape vals) =? 1)
                  then firstn 1 (odims self) else odims self)
    /\ ddims o = (if (ax =? 3) && (dim ax (shape vals) =? 1)
                  then [valuation_date self] else ddims self)
    /\ res = (if shape_eqb (shape vals) (1, 1, 1, 1)
              then Scalar (get (values o) 0 0 0 0) else Tri o).
Proof.
  unfold agg_func.
  fold (resolve_axis self axis).
  destruct (resolve_axis self axis) as [ax|e]; [|discriminate].
  destruct (getattr v) as [f|e]; [|discriminate].
  simpl bind.
  destruct (call f (values self) ax (kw_q kw)) as [vals|e] eqn:Hc; [|discriminate].
  simpl bind.
  rewrite !shape_if_odims, !shape_if_vdims, !shape_if_kdims.
  change (tri_shape (set_values self vals)) with (shape vals).
  rewrite !if_same.
  intros H.
  exists ax, f, vals.
  match type of H with
  | (if _ then _ else Ok (Tri ?t)) = _ => exists t
  end.
  split; [reflexivity|]. split; [reflexivity|]. split; [exact Hc|].
  assert (Hs : forall o, tri_shape (num_to_nan o) = tri_shape o) by reflexivity.
  rewrite Hs, shape_if_ddims, shape_if_odims, shape_if_vdims, shape_if_kdims in H.
  change (tri_shape (set_values self vals)) with (shape vals) in H.
  destruct (shape_eqb (shape vals) (1, 1, 1, 1)); injection H as <-;
    destruct ((ax =? 0) && (dim ax (shape vals) =? 1)),
      ((ax =? 1) && (dim ax (shape vals) =? 1)),
      ((ax =? 2) && (dim ax (shape vals) =? 1)),
      ((ax =? 3) && (dim ax (shape vals) =? 1)); repeat split; reflexivity.
Qed.

End AggFacts.

Module AggClaims.

Import Np Core Terms NpFacts AggFacts.

Local Open Scope string_scope.

Lemma dict_get_default (V : Type) (d : list (axis_arg * V)) (a : axis_arg)
  (default : V) :
  existsb (fun k => axis_arg_eqb k a) (map fst d) = false ->
  dict_get d a default = default.
Proof.
  induction d as [|[k v] d IH]; simpl; [reflexivity|].
  intros H. apply orb_false_iff in H as [-> H]. exact (IH H).
Qed.

Lemma _get_axis_bound (a : axis_arg) : _get_axis a < 4.
Proof.
  unfold _get_axis, ax; simpl.
  repeat match goal with
         | |- context [if ?c then _ else _] => destruct c
         end; lia.
Qed.

Lemma resolve_axis_bound (self : Triangle) (axis : option axis_arg) (n : nat) :
  resolve_axis self axis = Ok n -> n < 4.
Proof.
  destruct axis as [a|]; simpl.
  - intros [= <-]. apply _get_axis_bound.
  - unfold default_axis.
    destruct (tri_shape self) as [[[a b] c] d]; simpl.
    destruct (negb (a =? 1)%nat), (negb (b =? 1)%nat), (negb (c =? 1)%nat),
      (negb (d =? 1)%nat); simpl; intros [= <-]; lia.
Qed.

(** C2, as the code has it: every axis argument resolves to one of 0..3.
    An argument that is none of 0..3, -4..-1 and the four axis names
    resolves to 0; the reduction is then the one along axis 0, and the
    argument itself raises nothing. *)
Theorem unrecognised_axis_is_axis_0 (a : axis_arg) :
  recognised a = false ->
  _get_axis a = 0
  /\ forall (k : string) (self : Triangle) (kw : kwargs),
       Triangle_method k self (Some a) kw
       = Triangle_method k self (Some (AxInt 0)) kw.
Proof.
  intros H.
  assert (H0 : _get_axis a = 0) by (apply dict_get_default; exact H).
  split; [exact H0|].
  intros k self kw. unfold Triangle_method, agg_func.
  rewrite H0. reflexivity.
Qed.

Lemma unrecognised_axis_is_axis_0_witness :
  _get_axis (AxInt 7) = 0
  /\ forall (k : string) (self : Triangle) (kw : kwargs),
       Triangle_method k self (Some (AxInt 7)) kw
       = Triangle_method k self (Some (AxInt 0)) kw.
Proof. apply (unrecognised_axis_is_axis_0 (AxInt 7)). reflexivity. Defined.

(** C2 fails as stated: neither the integer 7 nor an unknown name is
    refused; [sum] returns the sum over the four rows. *)
Lemma axis_7_is_summed_along_0 :
  let summed :=
    Tri (mk_Triangle (array [[[[14; 8]]]]%float) [["(All)"]] ["line"]
           [Name "paid"] [2000%Z] [2000%Z; 2001%Z] 2001%Z) in
  Triangle_method "sum" four_rows (Some (AxInt 7)) no_kwargs = Ok summed
  /\ Triangle_method "sum" four_rows (Some (AxStr "entity")) no_kwargs
     = Ok summed.
Proof. split; reflexivity. Qed.

(** C4: the sum of a (1,1,1,1) triangle with the axis left out raises
    [ValueError], from [min] of an empty list; with an axis given it
    returns the scalar. *)
Theorem sum_of_one_cell_without_axis_raises :
  tri_shape one_cell = (1, 1, 1, 1)
  /\ Triangle_method "sum" one_cell None no_kwargs = Raise ValueError
  /\ Triangle_method "sum" one_cell (Some (AxInt 0)) no_kwargs
     = Ok (Scalar 5%float).
Proof. repeat split; reflexivity. Qed.

Lemma default_axis_of_unit_shape : default_axis (1, 1, 1, 1) = Raise ValueError.
Proof. reflexivity. Qed.

Lemma agg_func_unit_shape_raises (v : string) (self : Triangle) (kw : kwargs) :
  tri_shape self = (1, 1, 1, 1) -> agg_func v self None kw = Raise ValueError.
Proof. intros H. unfold agg_func. rewrite H. reflexivity. Qed.

(** C5: a reduction that returns a triangle has collapsed the reduced
    axis to length 1 and relabelled it: axis 0 by one row of "(All)", one
    per key label; axis 1 by the column 0; axis 2 by the first origin;
    axis 3 by the valuation date. *)
Theorem collapsed_axis_labels (v : string) (self : Triangle)
  (axis : option axis_arg) (kw : kwargs) (r : Triangle) (n : nat) :
  agg_func v self axis kw = Ok (Tri r) ->
  resolve_axis self axis = Ok n ->
  dim n (tri_shape r) = 1
  /\ (n = 0 -> key_labels r = key_labels self
               /\ kdims r = [repeat "(All)" (length (key_labels r))])
  /\ (n = 1 -> vdims r = [Num 0])
  /\ (n = 2 -> odims r = firstn 1 (odims self)
               /\ forall o rest, odims self = o :: rest -> odims r = [o])
  /\ (n = 3 -> ddims r = [valuation_date self]).
Proof.
  intros H Hn.
  apply agg_func_inv in H
    as (n' & f & vals & o & Hn' & _ & Hc & Hv & Hkl & Hk & Hvd & Hod & Hdd & Hr).
  rewrite Hn in Hn'. injection Hn' as <-.
  assert (Ho : r = o)
    by (destruct (shape_eqb (shape vals) (1, 1, 1, 1)); congruence).
  subst o.
  assert (Hd : dim n (shape vals) = 1)
    by (rewrite (call_shape _ _ _ _ _ Hc); apply dim_set_dim).
  rewrite Hd in Hk, Hvd, Hod, Hdd. simpl in Hk, Hvd, Hod, Hdd.
  split.
  { unfold tri_shape. rewrite Hv. exact Hd. }
  split; [|split; [|split]]; intros ->; simpl in *.
  - split; congruence.
  - exact Hvd.
  - split; [exact Hod|].
    intros o rest Ho. rewrite Hod, Ho. reflexivity.
  - exact Hdd.
Qed.

Lemma collapsed_axis_labels_witness :
  let r := mk_Triangle (array [[[[2]]]; [[[6]]]; [[[10]]]; [[[nan]]]]%float)
             [["B"]; ["A"]; ["B"]; ["A"]] ["line"] [Name "paid"]
             [2000%Z] [2001%Z] 2001%Z in
  dim 3 (tri_shape r) = 1
  /\ (3 = 0 -> key_labels r = key_labels four_rows
               /\ kdims r = [repeat "(All)" (length (key_labels r))])
  /\ (3 = 1 -> vdims r = [Num 0])
  /\ (3 = 2 -> odims r = firstn 1 (odims four_rows)
               /\ forall o rest, odims four_rows = o :: rest -> odims r = [o])
  /\ (3 = 3 -> ddims r = [valuation_date four_rows]).
Proof.
  apply (collapsed_axis_labels "nanmax" four_rows (Some (AxStr "development"))
           no_kwargs); reflexivity.
Defined.


(** *** Cells reduced from NaN only *)

Lemma num_to_nan_cell_never_0 (x : float) :
  (num_to_nan_cell x =? 0)%float = false.
Proof.
  unfold num_to_nan_cell. destruct (x =? 0)%float eqn:H; [reflexivity|exact H].
Qed.

Lemma num_to_nan_cell_of_nan (x : float) :
  is_nan x = true -> is_nan (num_to_nan_cell x) = true.
Proof.
  intros H. unfold num_to_nan_cell. destruct (x =? 0)%float; [reflexivity|exact H].
Qed.

(** The numpy function behind a registered method name is [nanprod] for
    "prod" only. *)
Lemma registered_prod (k v : string) (f : func) :
  lookup k agg_funcs = Some v -> getattr v = Ok f ->
  (f = f_nanprod <-> k = "prod").
Proof.
  unfold agg_funcs, agg_func_names. cbn [lookup map app String.append].
  intros Hl Hg.
  repeat match type of Hl with
         | context [String.eqb ?c k] =>
             destruct (String.eqb_spec c k) as [<-|?]
         end;
    cbv iota in Hl; try discriminate;
    injection Hl as <-; vm_compute in Hg; injection Hg as <-;
    split; congruence.
Qed.

Lemma result_cell_inv (v : string) (self : Triangle) (axis : option axis_arg)
  (kw : kwargs) (res : agg_result) (n i j l m : nat) :
  agg_func v self axis kw = Ok res ->
  resolve_axis self axis = Ok n ->
  in_range (result_shape res) i j l m ->
  exists (f : func) (red : list float -> float),
    getattr v = Ok f
    /\ reducer_of f (kw_q kw) = Some red
    /\ result_cell res i j l m
       = num_to_nan_cell (red (lane (values self) n i j l m)).
Proof.
  intros H Hn Hin.
  apply agg_func_inv in H
    as (n' & f & vals & o & Hn' & Hg & Hc & Hv & _ & _ & _ & _ & _ & Hr).
  rewrite Hn in Hn'. injection Hn' as <-.
  destruct (call_ok _ _ _ _ _ Hc) as (red & Hred & Hvals).
  exists f, red. split; [exact Hg|]. split; [exact Hred|].
  assert (Hcell : forall a b c d,
             in_range (shape vals) a b c d ->
             get (values o) a b c d
             = num_to_nan_cell (red (lane (values self) n a b c d))).
  { intros a b c d Hr'. rewrite Hv, get_map4 by reflexivity.
    f_equal. rewrite Hvals. apply get_reduce_keepdims.
    rewrite Hvals in Hr'. exact Hr'. }
  destruct (shape_eqb (shape vals) (1, 1, 1, 1)) eqn:Hs; subst res.
  - apply shape_eqb_eq in Hs. simpl in Hin.
    assert (i = 0 /\ j = 0 /\ l = 0 /\ m = 0) as (-> & -> & -> & ->) by lia.
    simpl. apply Hcell. rewrite Hs. simpl. lia.
  - simpl. apply Hcell. simpl in Hin. unfold tri_shape in Hin.
    rewrite Hv in Hin. exact Hin.
Qed.

(** C3, as the code has it: the cell a registered reduction returns for a
    slice made of NaN only is never 0; it is NaN, except under [prod],
    where it is 1. *)
Theorem all_nan_slice_cell (k : string) (self : Triangle)
  (axis : option axis_arg) (kw : kwargs) (res : agg_result) (n i j l m : nat) :
  Triangle_method k self axis kw = Ok res ->
  resolve_axis self axis = Ok n ->
  in_range (result_shape res) i j l m ->
  all_nan (lane (values self) n i j l m) ->
  (result_cell res i j l m =? 0)%float = false
  /\ (k <> "prod" -> is_nan (result_cell res i j l m) = true)
  /\ (k = "prod" -> result_cell res i j l m = 1%float).
Proof.
  unfold Triangle_method.
  destruct (lookup k agg_funcs) as [v|] eqn:Hl; [|discriminate].
  intros H Hn Hin Hnan.
  destruct (result_cell_inv _ _ _ _ _ _ _ _ _ _ H Hn Hin)
    as (f & red & Hg & Hred & ->).
  pose proof (registered_prod _ _ _ Hl Hg) as Hp.
  split; [apply num_to_nan_cell_never_0|]. split.
  - intros Hk.
    assert (Hf : f <> f_nanprod) by (intros E; apply Hk, Hp, E).
    destruct (reducer_all_nan _ _ _ _ Hred Hf Hnan) as [E|E].
    + apply num_to_nan_cell_of_nan, E.
    + rewrite E. reflexivity.
  - intros Hk. apply Hp in Hk. subst f.
    destruct (kw_q kw); simpl in Hred; [discriminate|].
    injection Hred as <-. rewrite (nanprod_all_nan _ Hnan). reflexivity.
Qed.

Lemma all_nan_slice_cell_witness :
  let res :=
    Tri (mk_Triangle (array [[[[3]]]; [[[9]]]; [[[10]]]; [[[nan]]]]%float)
           [["B"]; ["A"]; ["B"]; ["A"]] ["line"] [Name "paid"]
           [2000%Z] [2001%Z] 2001%Z) in
  (result_cell res 3 0 0 0 =? 0)%float = false
  /\ ("sum" <> "prod" -> is_nan (result_cell res 3 0 0 0) = true)
  /\ ("sum" = "prod" -> result_cell res 3 0 0 0 = 1%float).
Proof.
  apply (all_nan_slice_cell "sum" four_rows (Some (AxInt 3)) no_kwargs _ 3).
  - reflexivity.
  - reflexivity.
  - simpl. lia.
  - repeat constructor.
Defined.

(** C3 fails as stated: the last row of [four_rows] is NaN at both
    valuations, and its product along the development axis is 1. *)
Lemma prod_of_all_nan_slice_is_1 :
  let r := mk_Triangle (array [[[[2]]]; [[[18]]]; [[[10]]]; [[[1]]]]%float)
             [["B"]; ["A"]; ["B"]; ["A"]] ["line"] [Name "paid"]
             [2000%Z] [2001%Z] 2001%Z in
  all_nan (lane (values four_rows) 3 3 0 0 0)
  /\ Triangle_method "prod" four_rows (Some (AxInt 3)) no_kwargs = Ok (Tri r)
  /\ get (values r) 3 0 0 0 = 1%float
  /\ is_nan (get (values r) 3 0 0 0) = false.
Proof. split; [repeat constructor|repeat split; reflexivity]. Qed.

End AggClaims.

(** ** Grouping *)

Module PdFacts.

Import Pd Terms.

Lemma ascii_compare_refl (c : Ascii.ascii) : Ascii.compare c c = Eq.
Proof. unfold Ascii.compare. apply N.compare_refl. Qed.

Lemma ascii_compare_lt_trans (a b c : Ascii.ascii) :
  Ascii.compare a b = Lt -> Ascii.compare b c = Lt -> Ascii.compare a c = Lt.
Proof.
  unfold Ascii.compare. rewrite !N.compare_lt_iff. apply N.lt_trans.
Qed.

Lemma string_compare_refl (s : string) : String.compare s s = Eq.
Proof.
  induction s as [|c s IH]; simpl; [reflexivity|].
  rewrite ascii_compare_refl. exact IH.
Qed.

Lemma string_compare_lt_trans (a b c : string) :
  String.compare a b = Lt -> String.compare b c = Lt -> String.compare a c = Lt.
Proof.
  revert b c.
  induction a as [|x a IH]; intros [|y b] [|z c]; simpl; try discriminate; auto.
  destruct (Ascii.compare x y) eqn:Hxy; try discriminate;
    destruct (Ascii.compare y z) eqn:Hyz; try discriminate; intros H1 H2.
  - apply Ascii.compare_eq_iff in Hxy, Hyz. subst.
    rewrite ascii_compare_refl. eapply IH; eassumption.
  - apply Ascii.compare_eq_iff in Hxy. subst. rewrite Hyz. reflexivity.
  - apply Ascii.compare_eq_iff in Hyz. subst. rewrite Hxy. reflexivity.
  - rewrite (ascii_compare_lt_trans _ _ _ Hxy Hyz). reflexivity.
Qed.

Lemma key_compare_refl (a : list string) : key_compare a a = Eq.
Proof.
  induction a as [|x a IH]; simpl; [reflexivity|].
  rewrite string_compare_refl. exact IH.
Qed.

Lemma key_compare_eq (a b : list string) : key_compare a b = Eq -> a = b.
Proof.
  revert b. induction a as [|x a IH]; intros [|y b]; simpl; try discriminate;
    [reflexivity|].
  destruct (String.compare x y) eqn:H; try discriminate.
  apply String.compare_eq_iff in H. subst. intros E. f_equal. apply IH, E.
Qed.

Lemma key_compare_antisym (a b : list string) :
  key_compare a b = CompOpp (key_compare b a).
Proof.
  revert b. induction a as [|x a IH]; intros [|y b]; simpl; try reflexivity.
  rewrite (String.compare_antisym x y).
  destruct (String.compare y x); simpl; auto.
Qed.

Lemma key_lt_trans (a b c : list string) :
  key_lt a b -> key_lt b c -> key_lt a c.
Proof.
  unfold key_lt. revert b c.
  induction a as [|x a IH]; intros [|y b] [|z c]; simpl; try discriminate; auto.
  destruct (String.compare x y) eqn:Hxy; try discriminate;
    destruct (String.compare y z) eqn:Hyz; try discriminate; intros H1 H2.
  - apply String.compare_eq_iff in Hxy, Hyz. subst.
    rewrite string_compare_refl. eapply IH; eassumption.
  - apply String.compare_eq_iff in Hxy. subst. rewrite Hyz. reflexivity.
  - apply String.compare_eq_iff in Hyz. subst. rewrite Hxy. reflexivity.
  - rewrite (string_compare_lt_trans _ _ _ Hxy Hyz). reflexivity.
Qed.

Lemma key_lt_irrefl (a : list string) : ~ key_lt a a.
Proof. unfold key_lt. rewrite key_compare_refl. discriminate. Qed.

Lemma key_gt_lt (a b : list string) : key_compare a b = Gt -> key_lt b a.
Proof.
  unfold key_lt. intros H. rewrite key_compare_antisym, H. reflexivity.
Qed.

Lemma sorted_head_not_in (k : list string) (ks : list (list string)) :
  Forall (key_lt k) ks -> ~ In k ks.
Proof.
  intros H Hin. rewrite Forall_forall in H.
  exact (key_lt_irrefl _ (H _ Hin)).
Qed.

(** *** One insertion *)

Lemma group_insert_keys (k : list string) (i : nat) (gs : groups_t)
  (k' : list string) :
  In k' (map fst (group_insert k i gs)) <-> k' = k \/ In k' (map fst gs).
Proof.
  induction gs as [|[k1 rows] gs IH]; simpl.
  - intuition auto.
  - destruct (key_compare k k1) eqn:Hc; simpl.
    + apply key_compare_eq in Hc. subst. intuition auto.
    + intuition auto.
    + rewrite IH. intuition auto.
Qed.

Lemma group_insert_sorted (k : list string) (i : nat) (gs : groups_t) :
  StronglySorted key_lt (map fst gs) ->
  StronglySorted key_lt (map fst (group_insert k i gs)).
Proof.
  induction gs as [|[k1 rows] gs IH]; simpl; intros Hs.
  - repeat constructor.
  - inversion Hs as [|? ? Hs' Hall]; subst.
    destruct (key_compare k k1) eqn:Hc; simpl.
    + constructor; assumption.
    + constructor; [exact Hs|].
      constructor; [exact Hc|].
      eapply Forall_impl; [|exact Hall].
      intros a Ha. eapply key_lt_trans; [exact Hc|exact Ha].
    + constructor; [apply IH, Hs'|].
      apply Forall_forall. intros a Ha.
      apply group_insert_keys in Ha as [->|Ha].
      * apply key_gt_lt, Hc.
      * rewrite Forall_forall in Hall. apply Hall, Ha.
Qed.

Lemma group_insert_rows (k : list string) (i : nat) (gs : groups_t)
  (k' : list string) (rows' : list nat) :
  StronglySorted key_lt (map fst gs) ->
  In (k', rows') (group_insert k i gs) ->
  (k' = k /\ ((exists rows, In (k, rows) gs /\ rows' = rows ++ [i])
              \/ (~ In k (map fst gs) /\ rows' = [i])))
  \/ (k' <> k /\ In (k', rows') gs).
Proof.
  induction gs as [|[k1 rows] gs IH]; simpl; intros Hs Hin.
  - destruct Hin as [[= <- <-]|[]]. left. split; [reflexivity|]. right. auto.
  - inversion Hs as [|? ? Hs' Hall]; subst.
    pose proof (sorted_head_not_in _ _ Hall) as Hk1.
    destruct (key_compare k k1) eqn:Hc.
    + apply key_compare_eq in Hc. subst k1.
      destruct Hin as [[= <- <-]|Hin].
      * left. split; [reflexivity|]. left. exists rows. auto.
      * right. split; [|auto].
        intros ->. apply Hk1. apply (in_map fst) in Hin. exact Hin.
    + assert (Hall' : Forall (key_lt k) (k1 :: map fst gs)).
      { constructor; [exact Hc|].
        eapply Forall_impl; [|exact Hall].
        intros a Ha. eapply key_lt_trans; [exact Hc|exact Ha]. }
      pose proof (sorted_head_not_in _ _ Hall') as Hk.
      destruct Hin as [[= <- <-]|Hin].
      * left. split; [reflexivity|]. right. split; [exact Hk|reflexivity].
      * right. split; [|exact Hin].
        intros ->. apply Hk. simpl.
        destruct Hin as [[= <- <-]|Hin]; [left; reflexivity|].
        right. apply (in_map fst) in Hin. exact Hin.
    + assert (Hne : k1 <> k).
      { intros ->. rewrite key_compare_refl in Hc. discriminate. }
      destruct Hin as [[= <- <-]|Hin].
      * right. split; [exact Hne|left; reflexivity].
      * destruct (IH Hs' Hin) as [[-> [(rs & Hrs & ->)|[Hno ->]]]|[Hk Hin']].
        -- left. split; [reflexivity|]. left. exists rs. auto.
        -- left. split; [reflexivity|]. right. split; [|reflexivity].
           intros [E|E]; [exact (Hne E)|exact (Hno E)].
        -- right. auto.
Qed.

(** *** All the rows *)

Lemma rows_from_snoc (m : nat) (k : list string) (pre : list (list string))
  (x : list string) :
  rows_from m k (pre ++ [x])
  = rows_from m k pre
    ++ (if list_eq_dec string_dec x k then [m + length pre] else []).
Proof.
  revert m. induction pre as [|y pre IH]; intros m; simpl.
  - rewrite Nat.add_0_r, app_nil_r. reflexivity.
  - rewrite IH, <- app_assoc, Nat.add_succ_r. reflexivity.
Qed.

Lemma rows_from_absent (m : nat) (k : list string) (keys : list (list string)) :
  ~ In k keys -> rows_from m k keys = [].
Proof.
  revert m. induction keys as [|y keys IH]; intros m Hno; simpl; [reflexivity|].
  destruct (list_eq_dec string_dec y k) as [->|_].
  - exfalso. apply Hno. left. reflexivity.
  - apply IH. intros Hin. apply Hno. right. exact Hin.
Qed.

Lemma grouped_insert (pre : list (list string)) (gs : groups_t)
  (x : list string) :
  grouped pre gs -> grouped (pre ++ [x]) (group_insert x (length pre) gs).
Proof.
  intros (Hs & Hk & Hr). split; [|split].
  - apply group_insert_sorted, Hs.
  - intros k. rewrite group_insert_keys, Hk, in_app_iff. simpl.
    intuition auto.
  - intros k rows Hin. unfold rows_with_key. rewrite rows_from_snoc. simpl.
    destruct (group_insert_rows _ _ _ _ _ Hs Hin)
      as [[-> [(rs & Hrs & ->)|[Hno ->]]]|[Hne Hin']].
    + destruct (list_eq_dec string_dec x x) as [_|E]; [|contradiction].
      rewrite (Hr _ _ Hrs). reflexivity.
    + destruct (list_eq_dec string_dec x x) as [_|E]; [|contradiction].
      rewrite rows_from_absent; [reflexivity|].
      intros Hin'. apply Hno, Hk, Hin'.
    + destruct (list_eq_dec string_dec x k) as [E|_]; [congruence|].
      rewrite app_nil_r. apply Hr, Hin'.
Qed.

Lemma grouped_fold (ks pre : list (list string)) (gs : groups_t) :
  grouped pre gs ->
  grouped (pre ++ ks)
    (fold_left (fun gs ik => group_insert (snd ik) (fst ik) gs)
               (combine (seq (length pre) (length ks)) ks) gs).
Proof.
  revert pre gs. induction ks as [|x ks IH]; intros pre gs H; simpl.
  - rewrite app_nil_r. exact H.
  - apply (grouped_insert _ _ x) in H.
    apply IH in H.
    rewrite <- app_assoc, length_app, Nat.add_1_r in H. exact H.
Qed.

(** [group_rows] lists each distinct key once, in ascending order, with
    the rows of that key in row order. *)
Lemma group_rows_grouped (keys : list (list string)) :
  grouped keys (group_rows keys).
Proof.
  apply (grouped_fold keys [] []).
  split; [constructor|]. split; [reflexivity|]. intros k rows [].
Qed.

End PdFacts.

Module GroupByClaims.

Import Np Core Terms PdFacts.

Local Open Scope string_scope.

Lemma init_inv (t : Triangle) (b : by_arg) (g : TriangleGroupBy) :
  TriangleGroupBy_init t b = Ok g ->
  exists ps,
    mapM (Pd.column_position (key_labels t)) (by_list b) = Ok ps
    /\ obj g = t /\ by_ g = by_list b
    /\ groups g = Pd.group_rows (row_keys t ps).
Proof.
  unfold TriangleGroupBy_init, Pd.groupby. fold (by_list b).
  destruct (by_list b) as [|x l] eqn:Hb; [discriminate|].
  destruct (mapM (Pd.column_position (key_labels t)) (x :: l)) as [ps|e];
    [|discriminate].
  simpl. intros [= <-]. exists ps. repeat split; auto.
Qed.

Lemma groupby_agg_func_inv (k v : string) (g g' : TriangleGroupBy) :
  groupby_agg_func k v g = Ok g' ->
  kdims (obj g') = map fst (groups g)
  /\ key_labels (obj g') = by_ g
  /\ groups g' = groups g.
Proof.
  unfold groupby_agg_func.
  destruct (mapM _ _) as [vals|e]; [|discriminate]. simpl.
  destruct (concatenate0 vals) as [v'|e]; [|discriminate]. simpl.
  intros [= <-]. repeat split.
Qed.

(** The operation name plays no part in [groupby_agg_func]. *)
Lemma groupby_agg_func_ignores_op (k v k' v' : string) (g : TriangleGroupBy) :
  groupby_agg_func k v g = groupby_agg_func k' v' g.
Proof. reflexivity. Qed.

(** C6, as the code has it: the groups, and with them the rows and the
    row keys of the aggregated triangle, are in ascending key order, each
    distinct key once, whatever the order of the rows; a group lists its
    rows in row order. *)
Theorem groups_in_ascending_key_order (t : Triangle) (b : by_arg) (k : string)
  (r : Triangle) :
  groupby_aggregate t b k = Ok r ->
  exists (ps : list nat) (g : TriangleGroupBy),
    mapM (Pd.column_position (key_labels t)) (by_list b) = Ok ps
    /\ TriangleGroupBy_init t b = Ok g
    /\ kdims r = map fst (groups g)
    /\ StronglySorted key_lt (kdims r)
    /\ (forall key, In key (kdims r) <-> In key (row_keys t ps))
    /\ (forall key rows, In (key, rows) (groups g) ->
          rows = rows_with_key key (row_keys t ps)).
Proof.
  unfold groupby_aggregate, groupby.
  destruct (TriangleGroupBy_init t b) as [g|e] eqn:Hi; [|discriminate]. simpl.
  destruct (TriangleGroupBy_method k g) as [g'|e] eqn:Hm; [|discriminate]. simpl.
  intros [= <-].
  destruct (init_inv _ _ _ Hi) as (ps & Hps & _ & _ & Hg).
  unfold TriangleGroupBy_method in Hm.
  destruct (existsb _ _); [|discriminate].
  apply groupby_agg_func_inv in Hm as (Hk & _ & _).
  destruct (group_rows_grouped (row_keys t ps)) as (Hs & Hin & Hr).
  rewrite <- Hg in Hs, Hin, Hr.
  exists ps, g. rewrite Hk. repeat split; auto; apply Hin.
Qed.

Lemma groups_in_ascending_key_order_witness :
  exists (ps : list nat) (g : TriangleGroupBy),
    mapM (Pd.column_position (key_labels four_rows)) (by_list (ByStr "line"))
    = Ok ps
    /\ TriangleGroupBy_init four_rows (ByStr "line") = Ok g
    /\ [["A"]; ["B"]] = map fst (groups g)
    /\ StronglySorted key_lt [["A"]; ["B"]]
    /\ (forall key, In key [["A"]; ["B"]] <-> In key (row_keys four_rows ps))
    /\ (forall key rows, In (key, rows) (groups g) ->
          rows = rows_with_key key (row_keys four_rows ps)).
Proof.
  apply (groups_in_ascending_key_order four_rows (ByStr "line") "sum"
           (mk_Triangle (array [[[[3; 6]]]; [[[11; 2]]]]%float)
              [["A"]; ["B"]] ["line"] [Name "paid"]
              [2000%Z] [2000%Z; 2001%Z] 2001%Z)).
  reflexivity.
Defined.

(** C6 fails as stated: the rows of [four_rows] are of line B, A, B, A;
    B is seen first, and the aggregated rows are A, then B. *)
Lemma groups_are_not_in_first_seen_order :
  kdims four_rows = [["B"]; ["A"]; ["B"]; ["A"]]
  /\ first_seen (kdims four_rows) = [["B"]; ["A"]]
  /\ groupby_aggregate four_rows (ByList ["line"]) "sum"
     = Ok (mk_Triangle (array [[[[3; 6]]]; [[[11; 2]]]]%float)
             [["A"]; ["B"]] ["line"] [Name "paid"]
             [2000%Z] [2000%Z; 2001%Z] 2001%Z).
Proof. repeat split; reflexivity. Qed.

(** C1: [mean] on a group-by object returns the sums.  The rows 0 and 2 of
    [four_rows] are the group B; their mean is (5.5, 2), the method named
    [mean] puts their sum (11, 2) in the result, exactly as [sum] does. *)
Theorem groupby_mean_returns_sums :
  groupby_aggregate four_rows (ByStr "line") "mean"
  = Ok (mk_Triangle (array [[[[3; 6]]]; [[[11; 2]]]]%float)
          [["A"]; ["B"]] ["line"] [Name "paid"]
          [2000%Z] [2000%Z; 2001%Z] 2001%Z)
  /\ groupby_aggregate four_rows (ByStr "line") "mean"
     = groupby_aggregate four_rows (ByStr "line") "sum"
  /\ Triangle_method "mean" (iloc four_rows [0; 2]) (Some (AxInt 0))
       (mk_kwargs (Some false) None)
     = Ok (Tri (mk_Triangle (array [[[[5.5; 2]]]]%float)
                  [["(All)"]] ["line"] [Name "paid"]
                  [2000%Z] [2000%Z; 2001%Z] 2001%Z)).
Proof. repeat split; reflexivity. Qed.

(** Every registered group-by method is the method [sum]. *)
Lemma groupby_method_is_sum (k : string) (g : TriangleGroupBy) :
  In k agg_func_names ->
  TriangleGroupBy_method k g = TriangleGroupBy_method "sum" g.
Proof.
  intros H. unfold TriangleGroupBy_method.
  assert (E : existsb (String.eqb k) agg_func_names = true).
  { apply existsb_exists. exists k. split; [exact H|apply String.eqb_refl]. }
  rewrite E. reflexivity.
Qed.

End GroupByClaims.

(** ** Frames *)

Module FrameClaims.

Import Np Core Terms NpFacts.

Local Open Scope string_scope.

Lemma squeeze1_cell (f : float -> float) (v : ndarray) (a0 p : nat) :
  p < dim a0 (shape v) ->
  nth p (map f (squeeze1 v a0)) nan
  = f (get_at v (put_axis a0 p (0, 0, 0, 0))).
Proof.
  intros Hp. unfold squeeze1. rewrite map_map.
  apply (nth_map_seq _ (fun p => f (get_at v (put_axis a0 p (0, 0, 0, 0))))).
  exact Hp.
Qed.

Lemma squeeze2_cell (f : float -> float) (v : ndarray) (a0 a1 p q : nat) :
  p < dim a0 (shape v) -> q < dim a1 (shape v) ->
  nth q (nth p (map (map f) (squeeze2 v a0 a1)) []) nan
  = f (get_at v (put_axis a1 q (put_axis a0 p (0, 0, 0, 0)))).
Proof.
  intros Hp Hq. unfold squeeze2. rewrite map_map.
  rewrite (nth_map_seq _
             (fun p => map f (map (fun q => get_at v (put_axis a1 q
                                     (put_axis a0 p (0, 0, 0, 0))))
                                  (seq 0 (dim a1 (shape v))))))
    by exact Hp.
  rewrite map_map.
  apply (nth_map_seq _
           (fun q => f (get_at v (put_axis a1 q (put_axis a0 p (0, 0, 0, 0)))))).
  exact Hq.
Qed.

Lemma fillna0_not_nan (x : float) : is_nan (Pd.fillna0 x) = false.
Proof.
  unfold Pd.fillna0. destruct (is_nan x) eqn:H; [reflexivity|exact H].
Qed.

Lemma fillna0_of_nan (x : float) : is_nan x = true -> Pd.fillna0 x = 0%float.
Proof. intros H. unfold Pd.fillna0. rewrite H. reflexivity. Qed.

Lemma fillna0_of_number (x : float) : is_nan x = false -> Pd.fillna0 x = x.
Proof. intros H. unfold Pd.fillna0. rewrite H. reflexivity. Qed.

Lemma to_frame_cell (self : Triangle) (kw : option bool) (fr : Frame)
  (i j k l : nat) :
  to_frame self kw = Ok fr ->
  (dim 0 (tri_shape self) =? 1)%nat && (dim 1 (tri_shape self) =? 1)%nat = false ->
  in_range (tri_shape self) i j k l ->
  frame_cell fr (component (nth 0 (long_axes (tri_shape self)) 0) (i, j, k, l))
                (component (nth 1 (long_axes (tri_shape self)) 0) (i, j, k, l))
  = Pd.fillna0 (get (values self) i j k l).
Proof.
  intros Hf Hc Hin. unfold to_frame in Hf. rewrite Hc in Hf.
  fold (long_axes (tri_shape self)) in Hf.
  unfold tri_shape in *.
  destruct (shape (values self)) as [[[a b] c] d] eqn:Hs.
  simpl in Hin. destruct Hin as (Hi & Hj & Hk & Hl).
  unfold long_axes in *. cbn [seq filter dim] in Hf |- *.
  destruct (1 <? a)%nat eqn:Ha, (1 <? b)%nat eqn:Hb, (1 <? c)%nat eqn:Hc',
    (1 <? d)%nat eqn:Hd;
    cbn [length Nat.eqb orb nth component] in Hf |- *;
    try discriminate Hf;
    unfold _repr_date_axes in Hf;
    (destruct (existsb _ _) eqn:Hz in Hf; [discriminate Hf|]);
    cbn [existsb orb] in Hz;
    repeat match type of Hz with
           | (_ || _)%bool = false => apply orb_false_iff in Hz as [? Hz]
           end;
    repeat match goal with
           | H : (_ <? _)%nat = false |- _ => apply Nat.ltb_ge in H
           | H : (_ <? _)%nat = true |- _ => apply Nat.ltb_lt in H
           | H : (_ =? _)%nat = false |- _ => apply Nat.eqb_neq in H
           end.
  all: unfold pd_DataFrame, pd_Series in Hf.
  all: match type of Hf with
       | context [if ?c then Ok _ else Raise _] => destruct c; [|discriminate Hf]
       end.
  all: cbn [bind frame_fillna0] in Hf; injection Hf as <-; cbn [frame_cell].
  all: try (rewrite squeeze2_cell by (rewrite Hs; cbn [dim]; lia)).
  all: try (rewrite squeeze1_cell by (rewrite Hs; cbn [dim]; lia)).
  all: cbn [put_axis at_axis get_at]; f_equal.
  all: try (f_equal; lia).
  all: exfalso; cbn [dim] in Hc; apply andb_false_iff in Hc as [E|E];
    apply Nat.eqb_neq in E; lia.
Qed.

(** C8, as the code has it: unless the first two axes both have length 1
    (the frame is then the one of [_repr_format]), every cell of the
    triangle is in the frame at the row and column of its indices on the
    long axes, NaN as 0 and any other value, infinite ones too, as it is;
    no cell of the frame is NaN. *)
Theorem to_frame_fills_nan_with_0 (self : Triangle) (kw : option bool)
  (fr : Frame) (i j k l : nat) :
  to_frame self kw = Ok fr ->
  (dim 0 (tri_shape self) =? 1)%nat && (dim 1 (tri_shape self) =? 1)%nat = false ->
  in_range (tri_shape self) i j k l ->
  let x := get (values self) i j k l in
  let y := frame_cell fr
             (component (nth 0 (long_axes (tri_shape self)) 0) (i, j, k, l))
             (component (nth 1 (long_axes (tri_shape self)) 0) (i, j, k, l)) in
  (is_nan x = true -> y = 0%float)
  /\ (is_nan x = false -> y = x)
  /\ is_nan y = false.
Proof.
  intros Hf Hc Hin x y.
  assert (E : y = Pd.fillna0 x) by (apply (to_frame_cell self kw); assumption).
  rewrite E. split; [apply fillna0_of_nan|].
  split; [apply fillna0_of_number|apply fillna0_not_nan].
Qed.

Lemma to_frame_fills_nan_with_0_witness :
  let x := get (values four_rows) 2 0 0 1 in
  let y := frame_cell
             (DataFrame (MultiIndex ["line"] [["B"]; ["A"]; ["B"]; ["A"]])
                (DateIndex [Development 2000; Development 2001])
                [[1; 2]; [3; 6]; [10; 0]; [0; 0]]%float)
             (component (nth 0 (long_axes (tri_shape four_rows)) 0) (2, 0, 0, 1))
             (component (nth 1 (long_axes (tri_shape four_rows)) 0) (2, 0, 0, 1)) in
  (is_nan x = true -> y = 0%float)
  /\ (is_nan x = false -> y = x)
  /\ is_nan y = false.
Proof.
  apply (to_frame_fills_nan_with_0 four_rows None).
  - reflexivity.
  - reflexivity.
  - simpl. lia.
Defined.

(** C8 fails as stated: [four_rows] has two long axes, its cell (2,0,0,1)
    is NaN, and the frame holds 0 there, as it does for the last row. *)
Lemma to_frame_shows_nan_as_0 :
  is_nan (get (values four_rows) 2 0 0 1) = true
  /\ to_frame four_rows None
     = Ok (DataFrame (MultiIndex ["line"] [["B"]; ["A"]; ["B"]; ["A"]])
             (DateIndex [Development 2000; Development 2001])
             [[1; 2]; [3; 6]; [10; 0]; [0; 0]]%float).
Proof. split; reflexivity. Qed.

End FrameClaims.

(** ** The store of objects *)

Module HeapFacts.

Import Np Core.

Lemma deref_Some (h : heap) (r : ref) (o : Object) :
  deref h r = Ok o <-> nth_error h r = Some o.
Proof.
  unfold deref. destruct (nth_error h r); split; congruence.
Qed.

Lemma deref_bound (h : heap) (r : ref) (o : Object) :
  deref h r = Ok o -> r < length h.
Proof.
  intros H. apply deref_Some in H. apply nth_error_Some. congruence.
Qed.

Lemma deref_alloc_old (h : heap) (o : Object) (r : ref) :
  r < length h -> deref (fst (alloc h o)) r = deref h r.
Proof.
  intros H. unfold deref, alloc; simpl.
  rewrite nth_error_app1 by exact H. reflexivity.
Qed.

Lemma deref_alloc_new (h : heap) (o : Object) :
  deref (fst (alloc h o)) (snd (alloc h o)) = Ok o.
Proof.
  unfold deref, alloc; simpl.
  rewrite nth_error_app2, Nat.sub_diag by lia. reflexivity.
Qed.

Lemma length_store (h : heap) (r : ref) (o : Object) :
  length (store h r o) = length h.
Proof.
  revert r. induction h as [|x h IH]; intros [|r]; simpl; auto.
Qed.

Lemma deref_store_same (h : heap) (r : ref) (o : Object) :
  r < length h -> deref (store h r o) r = Ok o.
Proof.
  revert r. induction h as [|x h IH]; intros [|r]; simpl; try lia.
  - reflexivity.
  - intros H. apply (IH r). lia.
Qed.

Lemma deref_store_other (h : heap) (r r' : ref) (o : Object) :
  r' <> r -> deref (store h r o) r' = deref h r'.
Proof.
  revert r r'. induction h as [|x h IH]; intros [|r] [|r'] H; simpl;
    try reflexivity; try congruence.
  apply (IH r r'). congruence.
Qed.

End HeapFacts.

Module AstypeClaims.

Import Np Core Terms HeapFacts.

(** C10: with [inplace=True], [astype] returns a new object that holds the
    cast values and leaves every object of the store, [self] included, as
    it was; with [inplace=False] it casts the values of [self] and returns
    [self]. *)
Theorem astype_inplace_is_inverted (h : heap) (self : ref)
  (dtype : float -> float) (o : Object) :
  deref h self = Ok o ->
  (exists h',
      astype h self dtype (PyBool true) = Ok (h', length h)
      /\ length h <> self
      /\ deref h' (length h) = Ok (cast_object dtype o)
      /\ forall r, r < length h -> deref h' r = deref h r)
  /\ (exists h',
         astype h self dtype (PyBool false) = Ok (h', self)
         /\ deref h' self = Ok (cast_object dtype o)
         /\ forall r, r <> self -> deref h' r = deref h r).
Proof.
  intros Ho. pose proof (deref_bound _ _ _ Ho) as Hb. split.
  - unfold astype, copy. simpl is_True. cbv iota. rewrite Ho. simpl bind.
    pose proof (deref_alloc_new h o) as Hn. simpl in Hn. rewrite Hn. simpl.
    eexists. split; [reflexivity|]. split; [lia|]. split.
    + apply deref_store_same. rewrite length_app. simpl. lia.
    + intros r Hr. rewrite deref_store_other by lia.
      apply (deref_alloc_old h o r Hr).
  - unfold astype. simpl is_True. cbv iota. simpl bind. rewrite Ho. simpl.
    eexists. split; [reflexivity|]. split.
    + apply deref_store_same, Hb.
    + intros r Hr. apply deref_store_other, Hr.
Qed.

Lemma astype_inplace_is_inverted_witness :
  let h := [new_Object four_rows; new_Object one_cell] in
  let o := new_Object one_cell in
  (exists h',
      astype h 1 PrimFloat.opp (PyBool true) = Ok (h', length h)
      /\ length h <> 1
      /\ deref h' (length h) = Ok (cast_object PrimFloat.opp o)
      /\ forall r, r < length h -> deref h' r = deref h r)
  /\ (exists h',
         astype h 1 PrimFloat.opp (PyBool false) = Ok (h', 1)
         /\ deref h' 1 = Ok (cast_object PrimFloat.opp o)
         /\ forall r, r <> 1 -> deref h' r = deref h r).
Proof.
  apply (astype_inplace_is_inverted
           [new_Object four_rows; new_Object one_cell] 1 PrimFloat.opp).
  reflexivity.
Defined.

Example astype_default_keeps_self :
  astype [new_Object one_cell] 0 PrimFloat.opp (PyBool true)
  = Ok ([new_Object one_cell;
         new_Object (set_values one_cell (array [[[[-5]]]]%float))], 1).
Proof. reflexivity. Qed.

Example astype_inplace_False_changes_self :
  astype [new_Object one_cell] 0 PrimFloat.opp (PyBool false)
  = Ok ([new_Object (set_values one_cell (array [[[[-5]]]]%float))], 0).
Proof. reflexivity. Qed.

End AstypeClaims.

(** ** The incremental additive method *)

Module IncrementalClaims.

Import Np Core Incremental Terms NpFacts HeapFacts.

Local Open Scope string_scope.

Example cdf_of_some_ldf :
  values (cdf_of_ldf some_ldf) = array [[[[3; 1.5; 1]]]]%float.
Proof. reflexivity. Qed.




Example transform_zero_placeholders :
  option_map values
    (match transform fitted [new_Object four_rows] 0 with
     | Ok (h', x) => match deref h' x with
                     | Ok o' => attr_sigma_ o'
                     | Raise _ => None
                     end
     | Raise _ => None
     end)
  = Some (array [[[[0; 0; 0]]]]%float).
Proof. reflexivity. Qed.

(** *** The volume-weighted average *)

(** The cell of an array read under broadcasting is the cell itself,
    inside the array. *)
Lemma bget_in_range (v : ndarray) (i j k l : nat) :
  in_range (shape v) i j k l -> bget v i j k l = get v i j k l.
Proof.
  unfold bget. destruct (shape v) as [[[a b] c] d]. simpl.
  intros (Hi & Hj & Hk & Hl). unfold bidx.
  destruct (Nat.eqb_spec a 1), (Nat.eqb_spec b 1), (Nat.eqb_spec c 1),
    (Nat.eqb_spec d 1); subst;
    repeat match goal with
           | H : ?x < 1 |- _ => assert (x = 0) by lia; subst x; clear H
           end; reflexivity.
Qed.

Lemma get3_build3 (s : shape3_t) (g : nat -> nat -> nat -> float)
  (i j l : nat) :
  (let '(nr, nc, nd) := s in i < nr /\ j < nc /\ l < nd) ->
  get3 (build3 s g) i j l = g i j l.
Proof.
  destruct s as [[nr nc] nd]. intros (Hi & Hj & Hl).
  unfold get3, build3; simpl.
  rewrite (nth_map_seq _ _ _ _ _ Hi), (nth_map_seq _ _ _ _ _ Hj).
  apply nth_map_seq; exact Hl.
Qed.

Lemma bget3_in_range (v : ndarray3) (i j l : nat) :
  (let '(nr, nc, nd) := shape3 v in i < nr /\ j < nc /\ l < nd) ->
  bget3 v i j l = get3 v i j l.
Proof.
  unfold bget3. destruct (shape3 v) as [[a b] d].
  intros (Hi & Hj & Hl). unfold bidx.
  destruct (Nat.eqb_spec a 1), (Nat.eqb_spec b 1), (Nat.eqb_spec d 1); subst;
    repeat match goal with
           | H : ?x < 1 |- _ => assert (x = 0) by lia; subst x; clear H
           end; reflexivity.
Qed.

Lemma bdim_same (n : nat) : bdim n n = Some n.
Proof. unfold bdim. rewrite Nat.eqb_refl. reflexivity. Qed.

Lemma broadcast_shape_same (s : shape4) : broadcast_shape s s = Some s.
Proof.
  destruct s as [[[a b] c] d]. simpl. rewrite !bdim_same. reflexivity.
Qed.

Lemma broadcast2_ok (op : float -> float -> float) (a b : ndarray)
  (s : shape4) :
  broadcast_shape (shape a) (shape b) = Some s ->
  broadcast2 op a b
  = Ok (build s (fun i j k l => op (bget a i j k l) (bget b i j k l))).
Proof. intros H. unfold broadcast2. rewrite H. reflexivity. Qed.

Lemma broadcast3_ok (op : float -> float -> float) (a b : ndarray3)
  (s : shape3_t) :
  broadcast_shape3 (shape3 a) (shape3 b) = Some s ->
  broadcast3 op a b
  = Ok (build3 s (fun i j l => op (bget3 a i j l) (bget3 b i j l))).
Proof. intros H. unfold broadcast3. rewrite H. reflexivity. Qed.

(** C7: with [average='volume'], where the weights have the shape of the
    triangle and the exposure broadcasts to it, [fit] sets the fitted
    average of every origin, at each development lag, to the volume
    average of that lag. *)
Theorem fit_volume_average (w x sw : ndarray) (n_odims : nat) :
  shape w = shape x ->
  broadcast_shape (shape x) (shape sw) = Some (shape x) ->
  exists y,
    fit_y_ "volume" w x sw n_odims = Ok y
    /\ shape y = set_dim 2 n_odims (shape x)
    /\ forall i j k l,
         in_range (shape y) i j k l ->
         get y i j k l = volume_average w x sw i j l.
Proof.
  intros Hw Hsw.
  destruct (shape x) as [[[nr nc] no] nd] eqn:Hx.
  set (s := (nr, nc, no, nd)) in *.
  set (wx := build s (fun i j k l => (bget w i j k l * bget x i j k l)%float)).
  set (wxs := build s (fun i j k l => (bget wx i j k l * bget sw i j k l)%float)).
  set (ws := build s (fun i j k l => (bget w i j k l * bget sw i j k l)%float)).
  set (num := build3 (nr, nc, nd) (fun i j l => nansum (lane wxs 2 i j 0 l))).
  set (den := build3 (nr, nc, nd) (fun i j l => nansum (lane ws 2 i j 0 l))).
  set (y := build3 (nr, nc, nd)
              (fun i j l => (bget3 num i j l / bget3 den i j l)%float)).
  assert (E : fit_y_ "volume" w x sw n_odims
              = Ok (build (nr, nc, n_odims, nd) (fun i j _ l => get3 y i j l))).
  { unfold fit_y_.
    change (String.eqb "volume" "simple") with false.
    change (String.eqb "volume" "volume") with true.
    cbv iota. cbn [bind].
    rewrite (broadcast2_ok _ w x s)
      by (rewrite Hw, Hx; apply broadcast_shape_same).
    cbn [bind]. fold wx.
    rewrite (broadcast2_ok _ wx sw s) by exact Hsw.
    cbn [bind]. fold wxs.
    rewrite (broadcast2_ok _ w sw s) by (rewrite Hw; exact Hsw).
    cbn [bind]. fold ws.
    change (reduce_origin nansum wxs) with num.
    change (reduce_origin nansum ws) with den.
    rewrite (broadcast3_ok _ num den (nr, nc, nd))
      by (simpl; rewrite !bdim_same; reflexivity).
    cbn [bind]. fold y. reflexivity. }
  eexists. split; [exact E|]. split; [reflexivity|].
  intros i j k l (Hi & Hj & Hk & Hl).
  rewrite get_build by (simpl; lia).
  unfold y. rewrite get3_build3 by lia.
  rewrite !bget3_in_range by (simpl; lia).
  unfold num, den. rewrite !get3_build3 by lia.
  unfold volume_average, lane. rewrite Hx.
  change (shape wxs) with s. change (shape ws) with s. cbn [dim s at_axis].
  f_equal; f_equal; apply map_ext_in; intros o Ho; apply in_seq in Ho.
  - unfold wxs. rewrite get_build by (simpl; lia).
    rewrite (bget_in_range wx) by (simpl; lia).
    unfold wx. rewrite get_build by (simpl; lia).
    rewrite (bget_in_range w) by (rewrite Hw; simpl; lia).
    rewrite (bget_in_range x) by (rewrite Hx; simpl; lia).
    reflexivity.
  - unfold ws. rewrite get_build by (simpl; lia).
    rewrite (bget_in_range w) by (rewrite Hw; simpl; lia).
    reflexivity.
Qed.

Lemma fit_volume_average_witness :
  exists y,
    fit_y_ "volume" some_w some_x some_exposure 3 = Ok y
    /\ shape y = set_dim 2 3 (shape some_x)
    /\ forall i j k l,
         in_range (shape y) i j k l ->
         get y i j k l = volume_average some_w some_x some_exposure i j l.
Proof.
  apply (fit_volume_average some_w some_x some_exposure 3); reflexivity.
Defined.

Example fit_volume_average_values :
  fit_y_ "volume" some_w some_x some_exposure 3
  = Ok (array [[[[12.5; 7; 2]; [12.5; 7; 2]; [12.5; 7; 2]]]]%float).
Proof. reflexivity. Qed.

Example fit_simple_average_values :
  fit_y_ "simple" some_w some_x some_exposure 3
  = Ok (array [[[[12; 7; 2]; [12; 7; 2]; [12; 7; 2]]]]%float).
Proof. reflexivity. Qed.

Example fit_unknown_average_raises :
  fit_y_ "median" some_w some_x some_exposure 3 = Raise NameError.
Proof. reflexivity. Qed.

End IncrementalClaims.

(** ** More on the reductions *)

Module AggMore.

Import Np Core Terms MoreTerms NpFacts AggFacts.

Local Open Scope string_scope.

(** With the axis left out, the reduction runs along the first axis whose
    length is not 1, an empty axis included; only the shape (1,1,1,1) has
    none, and [min] of nothing is a [ValueError]. *)
Theorem default_axis_is_first_non_unit (s : shape4) :
  match default_axis s with
  | Ok n => n < 4 /\ dim n s <> 1 /\ forall m, m < n -> dim m s = 1
  | Raise e => e = ValueError /\ s = (1, 1, 1, 1)
  end.
Proof.
  destruct s as [[[a b] c] d]. unfold default_axis. simpl.
  destruct (Nat.eqb_spec a 1), (Nat.eqb_spec b 1), (Nat.eqb_spec c 1),
    (Nat.eqb_spec d 1); simpl; subst;
    try (split; [reflexivity|reflexivity]);
    (split; [lia|]); (split; [assumption|]);
    intros [|[|[|m]]] Hm; simpl; try reflexivity; lia.
Qed.

(** An integer axis from -4 to 3 is read as Python reads an index of a
    sequence of four: a negative one counts from the last axis.  The four
    names are those of the axes 0 to 3. *)
Theorem _get_axis_counts_from_the_end (z : Z) :
  (-4 <= z < 4)%Z ->
  _get_axis (AxInt z) = Z.to_nat (z mod 4)
  /\ _get_axis (AxStr "index") = 0
  /\ _get_axis (AxStr "columns") = 1
  /\ _get_axis (AxStr "origin") = 2
  /\ _get_axis (AxStr "development") = 3.
Proof.
  intros H.
  assert (E : z = (-4)%Z \/ z = (-3)%Z \/ z = (-2)%Z \/ z = (-1)%Z
              \/ z = 0%Z \/ z = 1%Z \/ z = 2%Z \/ z = 3%Z) by lia.
  repeat destruct E as [->|E]; try subst z; repeat split; reflexivity.
Qed.

Lemma _get_axis_counts_from_the_end_witness :
  _get_axis (AxInt (-1)) = Z.to_nat ((-1) mod 4)
  /\ _get_axis (AxStr "index") = 0
  /\ _get_axis (AxStr "columns") = 1
  /\ _get_axis (AxStr "origin") = 2
  /\ _get_axis (AxStr "development") = 3.
Proof. apply (_get_axis_counts_from_the_end (-1)). lia. Defined.

Lemma resolve_axis_lt_4 (self : Triangle) (axis : option axis_arg) (n : nat) :
  resolve_axis self axis = Ok n -> n < 4.
Proof. apply AggClaims.resolve_axis_bound. Qed.

Lemma agg_result_shape (v : string) (self : Triangle) (axis : option axis_arg)
  (kw : kwargs) (res : agg_result) (n : nat) :
  agg_func v self axis kw = Ok res ->
  resolve_axis self axis = Ok n ->
  result_shape res = set_dim n 1 (tri_shape self)
  /\ (is_scalar res = shape_eqb (set_dim n 1 (tri_shape self)) (1, 1, 1, 1)).
Proof.
  intros H Hn.
  apply agg_func_inv in H
    as (n' & f & vals & o & Hn' & _ & Hc & Hv & _ & _ & _ & _ & _ & Hr).
  rewrite Hn in Hn'. injection Hn' as <-.
  pose proof (call_shape _ _ _ _ _ Hc) as Hs. unfold tri_shape.
  rewrite <- Hs.
  destruct (shape_eqb (shape vals) (1, 1, 1, 1)) eqn:E; subst res; simpl.
  - apply shape_eqb_eq in E. rewrite E. split; reflexivity.
  - unfold tri_shape. rewrite Hv. split; reflexivity.
Qed.

(** A reduction keeps every axis but the reduced one, which gets length 1;
    it returns a bare number exactly when the three other axes have
    length 1, and a triangle otherwise. *)
Theorem reduction_shape_and_scalar (v : string) (self : Triangle)
  (axis : option axis_arg) (kw : kwargs) (res : agg_result) (n : nat) :
  agg_func v self axis kw = Ok res ->
  resolve_axis self axis = Ok n ->
  result_shape res = set_dim n 1 (tri_shape self)
  /\ (forall m, m < 4 -> m <> n ->
        dim m (result_shape res) = dim m (tri_shape self))
  /\ dim n (result_shape res) = 1
  /\ (is_scalar res = true
      <-> forall m, m < 4 -> m <> n -> dim m (tri_shape self) = 1).
Proof.
  intros H Hn.
  pose proof (resolve_axis_lt_4 _ _ _ Hn) as Hlt.
  destruct (agg_result_shape _ _ _ _ _ _ H Hn) as (Hs & Hsc).
  rewrite Hs, Hsc, shape_eqb_eq.
  destruct (tri_shape self) as [[[a b] c] d].
  split; [reflexivity|]. split; [|split].
  - intros m Hm4 Hm.
    destruct n as [|[|[|n]]], m as [|[|[|m]]]; simpl; try reflexivity;
      try congruence; lia.
  - destruct n as [|[|[|n]]]; reflexivity.
  - destruct n as [|[|[|n]]]; simpl; try lia; split.
    all: try (intros [= -> -> ->] [|[|[|m]]] Hm Hne; simpl;
              try reflexivity; try congruence; lia).
    all: intros Hall;
      pose proof (Hall 0) as H0; pose proof (Hall 1) as H1;
      pose proof (Hall 2) as H2; pose proof (Hall 3) as H3;
      simpl in H0, H1, H2, H3;
      repeat match goal with
             | Hx : ?i < 4 -> ?i <> ?j -> _ |- _ =>
                 first [ specialize (Hx ltac:(lia) ltac:(lia)) | clear Hx ]
             end; congruence.
Qed.

Lemma reduction_shape_and_scalar_witness :
  let res := Scalar 5%float in
  result_shape res = set_dim 0 1 (tri_shape one_cell)
  /\ (forall m, m < 4 -> m <> 0 ->
        dim m (result_shape res) = dim m (tri_shape one_cell))
  /\ dim 0 (result_shape res) = 1
  /\ (is_scalar res = true
      <-> forall m, m < 4 -> m <> 0 -> dim m (tri_shape one_cell) = 1).
Proof.
  apply (reduction_shape_and_scalar "nansum" one_cell (Some (AxInt 0))
           no_kwargs); reflexivity.
Defined.

(** A reduction keeps the labels in step with the values: when every axis
    of the triangle has as many labels as cells, so has every axis of the
    triangle returned.  The origin axis needs one origin at least: reduced
    over no origin at all, it gets length 1 and keeps no label. *)
Theorem reduction_keeps_labels_in_step (v : string) (self : Triangle)
  (axis : option axis_arg) (kw : kwargs) (r : Triangle) (n : nat) :
  agg_func v self axis kw = Ok (Tri r) ->
  resolve_axis self axis = Ok n ->
  labelled self ->
  (n = 2 -> odims self <> []) ->
  labelled r.
Proof.
  intros H Hn Hl Ho.
  pose proof (resolve_axis_lt_4 _ _ _ Hn) as Hlt.
  pose proof (agg_result_shape _ _ _ _ _ _ H Hn) as (Hs & _).
  apply agg_func_inv in H
    as (n' & f & vals & o & Hn' & _ & Hc & Hv & Hkl & Hk & Hvd & Hod & Hdd & Hr).
  rewrite Hn in Hn'. injection Hn' as <-.
  assert (E : r = o)
    by (destruct (shape_eqb (shape vals) (1, 1, 1, 1)); congruence).
  subst o.
  assert (Hd : dim n (shape vals) = 1)
    by (rewrite (call_shape _ _ _ _ _ Hc); apply dim_set_dim).
  rewrite Hd in Hk, Hvd, Hod, Hdd.
  unfold labelled in *. simpl in Hs. rewrite Hs, Hl, Hk, Hvd, Hod, Hdd.
  assert (E : n = 0 \/ n = 1 \/ n = 2 \/ n = 3) by lia.
  destruct E as [-> | [-> | [-> | ->]]]; simpl; try reflexivity.
  destruct (odims self) as [|x xs]; [exfalso; now apply Ho|reflexivity].
Qed.

Lemma reduction_keeps_labels_in_step_witness :
  labelled (mk_Triangle (array [[[[14; 8]]]]%float) [["(All)"]] ["line"]
              [Name "paid"] [2000%Z] [2000%Z; 2001%Z] 2001%Z).
Proof.
  apply (reduction_keeps_labels_in_step "nansum" four_rows (Some (AxInt 0))
           no_kwargs _ 0).
  - reflexivity.
  - reflexivity.
  - reflexivity.
  - discriminate.
Defined.

(** No reduction returns a cell equal to 0, whatever the slice: a result
    of exactly 0, as the sum of 1 and -1 is, comes back as NaN. *)
Theorem reduction_never_returns_0 (v : string) (self : Triangle)
  (axis : option axis_arg) (kw : kwargs) (res : agg_result) (i j k l : nat) :
  agg_func v self axis kw = Ok res ->
  in_range (result_shape res) i j k l ->
  (result_cell res i j k l =? 0)%float = false.
Proof.
  intros H Hin.
  apply agg_func_inv in H
    as (n & f & vals & o & _ & _ & _ & Hv & _ & _ & _ & _ & _ & Hr).
  assert (Hcell : forall a b c d,
             (get (values o) a b c d =? 0)%float = false).
  { intros a b c d. rewrite Hv, get_map4 by reflexivity.
    unfold num_to_nan_cell.
    destruct (get vals a b c d =? 0)%float eqn:E; [reflexivity|exact E]. }
  destruct (shape_eqb (shape vals) (1, 1, 1, 1)); subst res; simpl;
    apply Hcell.
Qed.

Lemma reduction_never_returns_0_witness :
  (result_cell
     (Tri (mk_Triangle (array [[[[nan; 7]]]]%float) [["(All)"]] ["line"]
             [Name "paid"] [2000%Z] [2000%Z; 2001%Z] 2001%Z)) 0 0 0 0
   =? 0)%float = false.
Proof.
  apply (reduction_never_returns_0 "nansum"
           (mk_Triangle (array [[[[1; 3]]]; [[[-1; 4]]]]%float)
              [["A"]; ["B"]] ["line"] [Name "paid"]
              [2000%Z] [2000%Z; 2001%Z] 2001%Z)
           (Some (AxInt 0)) no_kwargs).
  - reflexivity.
  - simpl. lia.
Defined.

(** The methods [cumsum] and [diff] never return: numpy's [nancumsum] and
    [diff] take no [keepdims], which every call passes.  With an axis
    given the error is a [TypeError]; so it is for [quantile] without
    [q]. *)
Theorem cumsum_and_diff_never_return (self : Triangle)
  (axis : option axis_arg) (kw : kwargs) :
  (forall res, Triangle_method "cumsum" self axis kw <> Ok res)
  /\ (forall res, Triangle_method "diff" self axis kw <> Ok res)
  /\ (forall a, Triangle_method "cumsum" self (Some a) kw = Raise TypeError
                /\ Triangle_method "diff" self (Some a) kw = Raise TypeError
                /\ Triangle_method "quantile" self (Some a)
                     (mk_kwargs (kw_auto_sparse kw) None) = Raise TypeError).
Proof.
  split; [|split].
  - intros res H. apply agg_func_inv in H as (n & f & vals & o & _ & Hg & Hc & _).
    injection Hg as <-. discriminate Hc.
  - intros res H. apply agg_func_inv in H as (n & f & vals & o & _ & Hg & Hc & _).
    injection Hg as <-. discriminate Hc.
  - intros a. repeat split; reflexivity.
Qed.

End AggMore.

(** ** More on the group-by *)

Module GroupByMore.

Import Np Core Terms MoreTerms NpFacts AggFacts PdFacts AggMore.

Local Open Scope string_scope.








(** *** What a group-by method computes *)

Lemma mapM_Forall2 (A B : Type) (f : A -> result B) (xs : list A)
  (ys : list B) :
  mapM f xs = Ok ys -> Forall2 (fun x y => f x = Ok y) xs ys.
Proof.
  revert ys. induction xs as [|x r IH]; simpl; intros ys.
  - intros [= <-]. constructor.
  - destruct (f x) as [y|e] eqn:Hx; simpl; [|discriminate].
    destruct (mapM f r) as [ys'|e]; simpl; [|discriminate].
    intros [= <-]. constructor; [exact Hx|apply IH; reflexivity].
Qed.

Lemma iloc_shape (o : Triangle) (rows : list nat) :
  tri_shape (iloc o rows) = set_dim 0 (length rows) (tri_shape o).
Proof.
  unfold iloc. destruct (tri_shape o) as [[[a b] c] d]. reflexivity.
Qed.

Lemma get_iloc (o : Triangle) (rows : list nat) (t j k l : nat) :
  t < length rows ->
  get (values (iloc o rows)) t j k l = get (values o) (nth t rows 0) j k l.
Proof.
  intros Ht. unfold iloc. destruct (tri_shape o) as [[[a b] c] d].
  unfold get; simpl.
  rewrite (nth_indep _ [] (nth 0 (data (values o)) []))
    by (rewrite length_map; exact Ht).
  rewrite (map_nth (fun i => nth i (data (values o)) [])). reflexivity.
Qed.

Lemma map_nth_seq (A B : Type) (g : A -> B) (xs : list A) (d : A) :
  map (fun t => g (nth t xs d)) (seq 0 (length xs)) = map g xs.
Proof.
  induction xs as [|x r IH]; simpl; [reflexivity|].
  f_equal. rewrite <- seq_shift, map_map. exact IH.
Qed.

Lemma lane_iloc (o : Triangle) (rows : list nat) (j k l : nat) :
  lane (values (iloc o rows)) 0 0 j k l
  = map (fun i => get (values o) i j k l) rows.
Proof.
  unfold lane.
  change (shape (values (iloc o rows))) with (tri_shape (iloc o rows)).
  rewrite iloc_shape, dim_set_dim.
  rewrite <- (map_nth_seq _ _ (fun i => get (values o) i j k l) rows 0).
  apply map_ext_in. intros t Ht. apply in_seq in Ht. simpl.
  apply get_iloc. lia.
Qed.

Lemma group_sum_inv (o : Triangle) (rows : list nat) (v : ndarray) :
  group_sum o rows = Ok v ->
  shape v = set_dim 0 1 (tri_shape o)
  /\ (exists row, data v = [row])
  /\ forall j k l,
       in_range (set_dim 0 1 (tri_shape o)) 0 j k l ->
       get v 0 j k l
       = num_to_nan_cell
           (nansum (map (fun i => get (values o) i j k l) rows)).
Proof.
  unfold group_sum.
  change (Triangle_method "sum" (iloc o rows) (Some (AxInt 0))
            (mk_kwargs (Some false) None))
    with (agg_func "nansum" (iloc o rows) (Some (AxInt 0))
            (mk_kwargs (Some false) None)).
  destruct (agg_func "nansum" (iloc o rows) (Some (AxInt 0))
              (mk_kwargs (Some false) None)) as [[x|t]|e] eqn:H;
    simpl; try discriminate.
  intros [= <-].
  apply agg_func_inv in H
    as (n & f & vals & t' & Hn & Hg & Hc & Hv & _ & _ & _ & _ & _ & Hr).
  injection Hn as <-. injection Hg as <-.
  change (_get_axis (AxInt 0)) with 0 in *.
  assert (E : t = t')
    by (destruct (shape_eqb (shape vals) (1, 1, 1, 1)); congruence).
  subst t'. injection Hc as <-.
  assert (Hs : set_dim 0 1 (tri_shape (iloc o rows)) = set_dim 0 1 (tri_shape o)).
  { rewrite iloc_shape. destruct (tri_shape o) as [[[a b] c] d]. reflexivity. }
  rewrite Hv. split; [|split].
  - simpl. exact Hs.
  - unfold reduce_keepdims, map4, build, build_data; simpl.
    change (shape (values (iloc o rows))) with (tri_shape (iloc o rows)).
    destruct (set_dim 0 1 (tri_shape (iloc o rows))) as [[[a b] c] d] eqn:Hd.
    assert (a = 1).
    { pose proof (dim_set_dim 0 1 (tri_shape (iloc o rows))) as D.
      rewrite Hd in D. exact D. }
    subst a. simpl. eexists. reflexivity.
  - intros j k l Hin. rewrite get_map4 by reflexivity. f_equal.
    rewrite get_reduce_keepdims
      by (change (shape (values (iloc o rows))) with (tri_shape (iloc o rows));
          rewrite Hs; exact Hin).
    rewrite lane_iloc. reflexivity.
Qed.

Lemma concat_singletons_nth (vs : list ndarray) (g : nat) (v : ndarray) :
  Forall (fun v => exists row, data v = [row]) vs ->
  nth_error vs g = Some v ->
  nth g (concat (map data vs)) [] = nth 0 (data v) [].
Proof.
  intros H. revert g. induction H as [|x vs (row & Hx) _ IH]; intros g.
  - destruct g; discriminate.
  - simpl. rewrite Hx. destruct g as [|g]; simpl.
    + intros [= <-]. rewrite Hx. reflexivity.
    + apply IH.
Qed.

Lemma Forall2_nth_error (A B : Type) (R : A -> B -> Prop) (xs : list A)
  (ys : list B) (i : nat) (x : A) :
  Forall2 R xs ys -> nth_error xs i = Some x ->
  exists y, nth_error ys i = Some y /\ R x y.
Proof.
  intros H. revert i. induction H as [|a b xs ys Hab _ IH]; intros i.
  - destruct i; discriminate.
  - destruct i as [|i]; simpl.
    + intros [= <-]. exists b. auto.
    + apply IH.
Qed.

Lemma set_dim_0_twice (n m : nat) (s : shape4) :
  set_dim 0 n (set_dim 0 m s) = set_dim 0 n s.
Proof. destruct s as [[[a b] c] d]. reflexivity. Qed.

Lemma list_sum_ones (vs : list ndarray) (s : shape4) :
  Forall (fun v => shape v = set_dim 0 1 s) vs ->
  list_sum (map (fun w => dim 0 (shape w)) vs) = length vs.
Proof.
  induction 1 as [|v vs Hv _ IH]; simpl; [reflexivity|].
  rewrite Hv, dim_set_dim, IH. reflexivity.
Qed.

Lemma groupby_agg_func_values (k v : string) (g g' : TriangleGroupBy) :
  groupby_agg_func k v g = Ok g' ->
  exists vals,
    Forall2 (fun rows w => group_sum (obj g) rows = Ok w)
            (map snd (groups g)) vals
    /\ groups g <> []
    /\ tri_shape (obj g') = set_dim 0 (length (groups g)) (tri_shape (obj g))
    /\ data (values (obj g')) = concat (map data vals)
    /\ kdims (obj g') = map fst (groups g)
    /\ key_labels (obj g') = by_ g
    /\ vdims (obj g') = vdims (obj g)
    /\ odims (obj g') = odims (obj g)
    /\ ddims (obj g') = ddims (obj g).
Proof.
  unfold groupby_agg_func.
  change (mapM _ (map snd (groups g)))
    with (mapM (group_sum (obj g)) (map snd (groups g))).
  destruct (mapM (group_sum (obj g)) (map snd (groups g))) as [vals|e] eqn:Hm;
    [|discriminate].
  simpl bind. apply mapM_Forall2 in Hm.
  assert (Hshape : Forall (fun w => shape w = set_dim 0 1 (tri_shape (obj g)))
                          vals).
  { clear -Hm. induction Hm as [|rows w rs ws Hw _ IH]; constructor; auto.
    apply (group_sum_inv _ _ _ Hw). }
  pose proof (Forall2_length Hm) as Hlen. rewrite length_map in Hlen.
  unfold concatenate0.
  destruct vals as [|v0 vals']; [discriminate|].
  destruct (forallb _ vals'); [|discriminate].
  simpl bind. intros [= <-]. exists (v0 :: vals').
  split; [exact Hm|]. split.
  { intros E. rewrite E in Hlen. discriminate. }
  split; [|repeat split].
  unfold tri_shape at 1. cbn [obj values set_kdims set_key_labels set_values shape].
  change (dim 0 (shape v0)
          + list_sum (map (fun w : ndarray => dim 0 (shape w)) vals'))
    with (list_sum (map (fun w : ndarray => dim 0 (shape w)) (v0 :: vals'))).
  rewrite (list_sum_ones _ _ Hshape), <- Hlen.
  inversion Hshape as [|? ? H0 _]; subst. rewrite H0.
  apply set_dim_0_twice.
Qed.

(** A group-by method returns one row per group and keeps the three other
    axes with their labels; the key labels become the names grouped by.
    So the rows of the result are as many as its row keys. *)
Theorem groupby_result_shape_and_labels (t : Triangle) (b : by_arg)
  (k : string) (r : Triangle) :
  groupby_aggregate t b k = Ok r ->
  exists g,
    groupby t b = Ok g
    /\ tri_shape r = set_dim 0 (length (groups g)) (tri_shape t)
    /\ length (kdims r) = length (groups g)
    /\ 0 < length (groups g)
    /\ key_labels r = by_list b
    /\ vdims r = vdims t /\ odims r = odims t /\ ddims r = ddims t.
Proof.
  unfold groupby_aggregate.
  destruct (groupby t b) as [g|e] eqn:Hg; [|discriminate]. simpl.
  destruct (TriangleGroupBy_method k g) as [g'|e] eqn:Hm; [|discriminate].
  simpl. intros [= <-].
  unfold TriangleGroupBy_method in Hm.
  destruct (existsb _ _); [|discriminate].
  apply groupby_agg_func_values in Hm
    as (vals & _ & Hne & Hs & _ & Hk & Hkl & Hv & Ho & Hd).
  assert (Hobj : obj g = t /\ by_ g = by_list b).
  { unfold groupby, TriangleGroupBy_init in Hg.
    destruct (Pd.groupby _ _ _); [|discriminate].
    injection Hg as <-. split; reflexivity. }
  destruct Hobj as (Et & Eb). rewrite Et in *.
  exists g. split; [reflexivity|]. split; [exact Hs|].
  split; [rewrite Hk; apply length_map|].
  split; [destruct (groups g); [contradiction|simpl; lia]|].
  rewrite Hkl, Eb. auto.
Qed.

Lemma groupby_result_shape_and_labels_witness :
  exists g,
    groupby four_rows (ByStr "line") = Ok g
    /\ tri_shape (mk_Triangle (array [[[[3; 6]]]; [[[11; 2]]]]%float)
                    [["A"]; ["B"]] ["line"] [Name "paid"]
                    [2000%Z] [2000%Z; 2001%Z] 2001%Z)
       = set_dim 0 (length (groups g)) (tri_shape four_rows)
    /\ length [["A"]; ["B"]] = length (groups g)
    /\ 0 < length (groups g)
    /\ ["line"] = by_list (ByStr "line")
    /\ [Name "paid"] = vdims four_rows /\ [2000%Z] = odims four_rows
    /\ [2000%Z; 2001%Z] = ddims four_rows.
Proof.
  apply (groupby_result_shape_and_labels four_rows (ByStr "line") "max"
           (mk_Triangle (array [[[[3; 6]]]; [[[11; 2]]]]%float)
              [["A"]; ["B"]] ["line"] [Name "paid"]
              [2000%Z] [2000%Z; 2001%Z] 2001%Z)).
  reflexivity.
Defined.

(** Whatever its name, a group-by method puts in row [gi] of the result
    the NaN-skipping sum, cell by cell, of the rows of the group [gi], an
    exact 0 coming back as NaN. *)
Theorem groupby_rows_are_group_sums (t : Triangle) (b : by_arg) (k : string)
  (r : Triangle) (g : TriangleGroupBy) (gi : nat) (key : list string)
  (rows : list nat) (j c l : nat) :
  groupby_aggregate t b k = Ok r ->
  groupby t b = Ok g ->
  nth_error (groups g) gi = Some (key, rows) ->
  in_range (tri_shape r) gi j c l ->
  nth gi (kdims r) [] = key
  /\ get (values r) gi j c l
     = num_to_nan_cell (nansum (map (fun i => get (values t) i j c l) rows)).
Proof.
  unfold groupby_aggregate. intros H Hg Hgi Hin. rewrite Hg in H. simpl in H.
  destruct (TriangleGroupBy_method k g) as [g'|e] eqn:Hm; [|discriminate].
  simpl in H. injection H as <-.
  unfold TriangleGroupBy_method in Hm.
  destruct (existsb _ _); [|discriminate].
  apply groupby_agg_func_values in Hm
    as (vals & HF & _ & Hs & Hdata & Hk & _).
  assert (Et : obj g = t).
  { unfold groupby, TriangleGroupBy_init in Hg.
    destruct (Pd.groupby _ _ _); [|discriminate].
    injection Hg as <-. reflexivity. }
  rewrite Et in *. split.
  - rewrite Hk.
    rewrite (nth_indep _ [] (fst (key, rows)))
      by (rewrite length_map; apply nth_error_Some; congruence).
    rewrite map_nth. erewrite nth_error_nth by exact Hgi. reflexivity.
  - assert (Hrows : nth_error (map snd (groups g)) gi = Some rows)
      by (rewrite nth_error_map, Hgi; reflexivity).
    destruct (Forall2_nth_error _ _ _ _ _ _ _ HF Hrows) as (w & Hw & Hsum).
    destruct (group_sum_inv _ _ _ Hsum) as (_ & _ & Hcell).
    assert (Hsingle : Forall (fun v => exists row, data v = [row]) vals).
    { clear -HF. induction HF as [|rs w' ? ? Hw' _ IH]; constructor; auto.
      apply (group_sum_inv _ _ _ Hw'). }
    unfold get at 1. rewrite Hdata.
    rewrite (concat_singletons_nth _ _ _ Hsingle Hw).
    change (get w 0 j c l
            = num_to_nan_cell
                (nansum (map (fun i => get (values t) i j c l) rows))).
    apply Hcell. rewrite Hs in Hin.
    destruct (tri_shape t) as [[[a b'] c'] d]. simpl in *. lia.
Qed.

Lemma groupby_rows_are_group_sums_witness :
  nth 1 [["A"]; ["B"]] [] = ["B"]
  /\ get (array [[[[3; 6]]]; [[[11; 2]]]]%float) 1 0 0 0
     = num_to_nan_cell
         (nansum (map (fun i => get (values four_rows) i 0 0 0) [0; 2])).
Proof.
  apply (groupby_rows_are_group_sums four_rows (ByStr "line") "median"
           (mk_Triangle (array [[[[3; 6]]]; [[[11; 2]]]]%float)
              [["A"]; ["B"]] ["line"] [Name "paid"]
              [2000%Z] [2000%Z; 2001%Z] 2001%Z)
           (mk_TriangleGroupBy four_rows ["line"]
              [(["A"], [1; 3]); (["B"], [0; 2])])
           1 ["B"] [0; 2] 0 0 0).
  - reflexivity.
  - reflexivity.
  - reflexivity.
  - simpl. lia.
Defined.

Lemma sum_along_rows_returns (self : Triangle) (a : option bool) :
  exists res,
    agg_func "nansum" self (Some (AxInt 0)) (mk_kwargs a None) = Ok res.
Proof.
  unfold agg_func. simpl.
  match goal with
  | |- exists _, (if ?c then _ else _) = _ => destruct c
  end; eexists; reflexivity.
Qed.

(** On a triangle with rows but a single column, origin and development, a
    group-by method raises [AttributeError]: the sum of a group is then a
    bare number, which has no [set_backend]. *)
Theorem groupby_of_single_cells_raises (t : Triangle) (b : by_arg)
  (k : string) (g : TriangleGroupBy) :
  groupby t b = Ok g ->
  kdims t <> [] ->
  dim 1 (tri_shape t) = 1 -> dim 2 (tri_shape t) = 1 ->
  dim 3 (tri_shape t) = 1 ->
  In k agg_func_names ->
  TriangleGroupBy_method k g = Raise AttributeError.
Proof.
  intros Hg Hk H1 H2 H3 Hin.
  unfold TriangleGroupBy_method.
  assert (E : existsb (String.eqb k) agg_func_names = true).
  { apply existsb_exists. exists k. split; [exact Hin|apply String.eqb_refl]. }
  rewrite E. clear E.
  destruct (GroupByClaims.init_inv _ _ _ Hg) as (ps & _ & Ho & _ & Hgr).
  destruct (group_rows_grouped (row_keys t ps)) as (_ & Hkeys & _).
  rewrite <- Hgr in Hkeys.
  destruct (groups g) as [|[key rows] rest] eqn:Hgroups.
  { exfalso. unfold row_keys in Hkeys.
    destruct (kdims t) as [|x xs]; [contradiction|].
    exact (proj2 (Hkeys (map (fun p => nth p x EmptyString) ps))
             (or_introl eq_refl)). }
  unfold groupby_agg_func. rewrite Hgroups, Ho.
  change (mapM _ (map snd ((key, rows) :: rest)))
    with (mapM (group_sum t) (rows :: map snd rest)).
  assert (Hs : group_sum t rows = Raise AttributeError).
  { unfold group_sum.
    change (Triangle_method "sum" (iloc t rows) (Some (AxInt 0))
              (mk_kwargs (Some false) None))
      with (agg_func "nansum" (iloc t rows) (Some (AxInt 0))
              (mk_kwargs (Some false) None)).
    destruct (sum_along_rows_returns (iloc t rows) (Some false)) as (res & Hres).
    rewrite Hres. simpl.
    destruct (agg_result_shape _ _ _ _ _ 0 Hres eq_refl) as (_ & Hsc).
    rewrite iloc_shape, set_dim_0_twice in Hsc.
    destruct (tri_shape t) as [[[a b'] c] d]. simpl in *. subst.
    destruct res; [reflexivity|discriminate]. }
  simpl. rewrite Hs. reflexivity.
Qed.

Lemma groupby_of_single_cells_raises_witness :
  TriangleGroupBy_method "sum" (mk_TriangleGroupBy one_cell ["line"] [(["A"], [0])])
  = Raise AttributeError.
Proof.
  apply (groupby_of_single_cells_raises one_cell (ByStr "line")).
  - reflexivity.
  - discriminate.
  - reflexivity.
  - reflexivity.
  - reflexivity.
  - left. reflexivity.
Defined.

End GroupByMore.

(** ** More on the frames *)

Module FrameMore.

Import Np Core Terms MoreTerms NpFacts.

Local Open Scope string_scope.

(** A triangle with three or four axes longer than 1 has no frame:
    [to_frame] raises [ValueError]. *)
Theorem to_frame_refuses_three_long_axes (self : Triangle) (kw : option bool) :
  3 <= length (long_axes (tri_shape self)) ->
  to_frame self kw = Raise ValueError.
Proof.
  unfold to_frame. fold (long_axes (tri_shape self)).
  destruct (tri_shape self) as [[[a b] c] d]. unfold long_axes.
  cbn [seq filter dim].
  destruct (1 <? a)%nat eqn:Ha, (1 <? b)%nat eqn:Hb, (1 <? c)%nat eqn:Hc,
    (1 <? d)%nat eqn:Hd; cbn [length]; intros H; try lia;
    repeat match goal with
           | Hx : (_ <? _)%nat = true |- _ => apply Nat.ltb_lt in Hx
           end;
    destruct (Nat.eqb_spec a 1), (Nat.eqb_spec b 1); try lia; reflexivity.
Qed.

Lemma to_frame_refuses_three_long_axes_witness :
  to_frame (mk_Triangle
              (array [[[[1; 2]; [3; 4]]]; [[[5; 6]; [7; 8]]]]%float)
              [["A"]; ["B"]] ["line"] [Name "paid"]
              [2000%Z; 2001%Z] [12%Z; 24%Z] 2001%Z) None
  = Raise ValueError.
Proof. apply to_frame_refuses_three_long_axes. simpl. lia. Defined.

Lemma length_squeeze1 (v : ndarray) (a0 : nat) :
  length (squeeze1 v a0) = dim a0 (shape v).
Proof. unfold squeeze1. rewrite length_map, length_seq. reflexivity. Qed.

Lemma length_squeeze2 (v : ndarray) (a0 a1 : nat) :
  length (squeeze2 v a0 a1) = dim a0 (shape v)
  /\ Forall (fun row => length row = dim a1 (shape v)) (squeeze2 v a0 a1).
Proof.
  unfold squeeze2. split; [rewrite length_map, length_seq; reflexivity|].
  apply Forall_forall. intros row Hr. apply in_map_iff in Hr as (p & <- & _).
  rewrite length_map, length_seq. reflexivity.
Qed.

(** The frame of a triangle whose first two axes are not both of length 1:
    a series along the one long axis, or a table with the first long axis
    down the rows and the second across the columns; a long row axis is
    indexed by the row keys, under the names of the key labels. *)
Theorem to_frame_series_or_table (self : Triangle) (kw : option bool)
  (fr : Frame) :
  to_frame self kw = Ok fr ->
  (dim 0 (tri_shape self) =? 1)%nat && (dim 1 (tri_shape self) =? 1)%nat = false ->
  let axes := long_axes (tri_shape self) in
  match fr with
  | Series idx cells =>
      length axes = 1
      /\ length cells = dim (nth 0 axes 0) (tri_shape self)
      /\ index_length idx = length cells
      /\ (nth 0 axes 0 = 0 -> idx = MultiIndex (key_labels self) (kdims self))
  | DataFrame idx cols cells =>
      length axes = 2
      /\ length cells = dim (nth 0 axes 0) (tri_shape self)
      /\ Forall (fun row => length row = dim (nth 1 axes 0) (tri_shape self))
                cells
      /\ index_length idx = length cells
      /\ (nth 0 axes 0 = 0 -> idx = MultiIndex (key_labels self) (kdims self))
  end.
Proof.
  intros Hf Hc axes. subst axes. unfold to_frame in Hf. rewrite Hc in Hf.
  fold (long_axes (tri_shape self)) in Hf.
  destruct (long_axes (tri_shape self)) as [|a0 [|a1 [|a2 rest]]] eqn:Hax;
    cbn [length Nat.eqb orb nth] in Hf; try discriminate Hf.
  - unfold _repr_date_axes in Hf.
    destruct (existsb _ _); [discriminate Hf|].
    unfold pd_Series in Hf.
    match type of Hf with
    | context [if ?c then Ok _ else Raise _] =>
        destruct c eqn:E; [|discriminate Hf]
    end.
    apply Nat.eqb_eq in E.
    cbn [bind frame_fillna0] in Hf. injection Hf as <-.
    rewrite length_map, length_squeeze1. cbn [length nth].
    split; [reflexivity|]. split; [reflexivity|]. split.
    + etransitivity; [exact E|apply length_squeeze1].
    + intros ->. reflexivity.
  - unfold _repr_date_axes in Hf.
    destruct (existsb _ _); [discriminate Hf|].
    unfold pd_DataFrame in Hf.
    match type of Hf with
    | context [if ?c then Ok _ else Raise _] =>
        destruct c eqn:E; [|discriminate Hf]
    end.
    cbn [bind frame_fillna0] in Hf. injection Hf as <-.
    apply andb_true_iff in E as (E & _). apply Nat.eqb_eq in E.
    destruct (length_squeeze2 (values self) a0 a1) as (L1 & L2).
    rewrite length_map. cbn [length nth].
    split; [reflexivity|]. split; [exact L1|]. split; [|split].
    + apply Forall_forall. intros row Hr.
      apply in_map_iff in Hr as (row' & <- & Hr').
      rewrite length_map. rewrite Forall_forall in L2. apply L2, Hr'.
    + exact E.
    + intros ->. reflexivity.
Qed.

Lemma to_frame_series_or_table_witness :
  let axes := long_axes (tri_shape four_rows) in
  length axes = 2
  /\ length [[1; 2]; [3; 6]; [10; 0]; [0; 0]]%float
     = dim (nth 0 axes 0) (tri_shape four_rows)
  /\ Forall (fun row => length row = dim (nth 1 axes 0) (tri_shape four_rows))
            [[1; 2]; [3; 6]; [10; 0]; [0; 0]]%float
  /\ index_length (MultiIndex ["line"] [["B"]; ["A"]; ["B"]; ["A"]])
     = length [[1; 2]; [3; 6]; [10; 0]; [0; 0]]%float
  /\ (nth 0 axes 0 = 0 ->
      MultiIndex ["line"] [["B"]; ["A"]; ["B"]; ["A"]]
      = MultiIndex (key_labels four_rows) (kdims four_rows)).
Proof.
  apply (to_frame_series_or_table four_rows None
           (DataFrame (MultiIndex ["line"] [["B"]; ["A"]; ["B"]; ["A"]])
              (DateIndex [Development 2000; Development 2001])
              [[1; 2]; [3; 6]; [10; 0]; [0; 0]]%float));
    reflexivity.
Defined.

End FrameMore.

(** ** More on [fit] *)

Module FitMore.

Import Np Core Incremental Trend Terms MoreTerms NpFacts.

Local Open Scope string_scope.

(** With [average='simple'], where the weights have the shape of the
    triangle, the fitted average of every origin, at each development lag,
    is the NaN-skipping mean of [w * x] over the origins; the exposure
    plays no part, whatever its shape. *)
Theorem fit_simple_average (w x sw : ndarray) (n_odims : nat) :
  shape w = shape x ->
  exists y,
    fit_y_ "simple" w x sw n_odims = Ok y
    /\ shape y = set_dim 2 n_odims (shape x)
    /\ forall i j k l,
         in_range (shape y) i j k l ->
         get y i j k l = simple_average w x i j l.
Proof.
  intros Hw.
  destruct (shape x) as [[[nr nc] no] nd] eqn:Hx.
  set (s := (nr, nc, no, nd)) in *.
  set (wx := build s (fun i j k l => (bget w i j k l * bget x i j k l)%float)).
  set (y := build3 (nr, nc, nd) (fun i j l => nanmean (lane wx 2 i j 0 l))).
  assert (E : fit_y_ "simple" w x sw n_odims
              = Ok (build (nr, nc, n_odims, nd) (fun i j _ l => get3 y i j l))).
  { unfold fit_y_.
    change (String.eqb "simple" "simple") with true.
    change (String.eqb "simple" "volume") with false.
    cbv iota.
    rewrite (IncrementalClaims.broadcast2_ok _ w x s)
      by (rewrite Hw, Hx; apply IncrementalClaims.broadcast_shape_same).
    cbn [bind]. fold wx.
    change (reduce_origin nanmean wx) with y. reflexivity. }
  eexists. split; [exact E|]. split; [reflexivity|].
  intros i j k l (Hi & Hj & Hk & Hl).
  rewrite get_build by (simpl; lia).
  unfold y. rewrite IncrementalClaims.get3_build3 by lia.
  unfold simple_average, lane. rewrite Hx.
  change (shape wx) with s. cbn [dim s at_axis].
  f_equal. apply map_ext_in. intros o Ho. apply in_seq in Ho.
  unfold wx. rewrite get_build by (simpl; lia).
  rewrite (IncrementalClaims.bget_in_range w) by (rewrite Hw; simpl; lia).
  rewrite (IncrementalClaims.bget_in_range x) by (rewrite Hx; simpl; lia).
  reflexivity.
Qed.

Lemma fit_simple_average_witness :
  exists y,
    fit_y_ "simple" some_w some_x (array []) 3 = Ok y
    /\ shape y = set_dim 2 3 (shape some_x)
    /\ forall i j k l,
         in_range (shape y) i j k l ->
         get y i j k l = simple_average some_w some_x i j l.
Proof. apply (fit_simple_average some_w some_x (array []) 3). reflexivity. Defined.

(** An average that is neither 'simple' nor 'volume' leaves [y_] unbound:
    [fit] raises [NameError], whatever the triangles. *)
Theorem fit_unknown_average_is_NameError (average : string)
  (w x sw : ndarray) (n_odims : nat) :
  average <> "simple" -> average <> "volume" ->
  fit_y_ average w x sw n_odims = Raise NameError.
Proof.
  intros H1 H2. unfold fit_y_.
  apply String.eqb_neq in H1, H2. rewrite H1, H2. reflexivity.
Qed.

Lemma fit_unknown_average_is_NameError_witness :
  fit_y_ "Volume" some_w some_x some_exposure 3 = Raise NameError.
Proof. apply fit_unknown_average_is_NameError; discriminate. Defined.

Lemma fit_y_is_repeated (average : string) (w x sw : ndarray) (n_odims : nat)
  (y : ndarray) :
  fit_y_ average w x sw n_odims = Ok y ->
  exists y3, y = expand_repeat_origin y3 n_odims.
Proof.
  unfold fit_y_.
  destruct (String.eqb average "simple").
  - destruct (broadcast2 PrimFloat.mul w x) as [wx|e]; [|discriminate].
    cbn [bind].
    destruct (String.eqb average "volume").
    + destruct (broadcast2 PrimFloat.mul wx sw) as [wxs|e]; [|discriminate].
      cbn [bind].
      destruct (broadcast2 PrimFloat.mul w sw) as [ws|e]; [|discriminate].
      cbn [bind].
      destruct (broadcast3 _ _ _) as [y'|e]; [|discriminate].
      cbn [bind]. intros [= <-]. eexists. reflexivity.
    + cbn [bind]. intros [= <-]. eexists. reflexivity.
  - cbn [bind].
    destruct (String.eqb average "volume"); [|discriminate].
    destruct (broadcast2 PrimFloat.mul w x) as [wx|e]; [|discriminate].
    cbn [bind].
    destruct (broadcast2 PrimFloat.mul wx sw) as [wxs|e]; [|discriminate].
    cbn [bind].
    destruct (broadcast2 PrimFloat.mul w sw) as [ws|e]; [|discriminate].
    cbn [bind].
    destruct (broadcast3 _ _ _) as [y'|e]; [|discriminate].
    cbn [bind]. intros [= <-]. eexists. reflexivity.
Qed.

(** Whatever the average, the fitted average has one row per origin of the
    triangle and is the same for every origin: a cell depends on its row,
    column and development lag only. *)
Theorem fit_average_is_the_same_for_every_origin (average : string)
  (w x sw : ndarray) (n_odims : nat) (y : ndarray) (i j k k' l : nat) :
  fit_y_ average w x sw n_odims = Ok y ->
  in_range (shape y) i j k l ->
  k' < n_odims ->
  dim 2 (shape y) = n_odims
  /\ get y i j k l = get y i j k' l.
Proof.
  intros H Hin Hk'.
  destruct (fit_y_is_repeated _ _ _ _ _ _ H) as (y3 & ->).
  unfold expand_repeat_origin in *.
  destruct (shape3 y3) as [[nr nc] nd].
  split; [reflexivity|].
  destruct Hin as (Hi & Hj & Hk & Hl).
  rewrite !get_build by (simpl; lia). reflexivity.
Qed.

Lemma fit_average_is_the_same_for_every_origin_witness :
  let y := array [[[[12.5; 7; 2]; [12.5; 7; 2]; [12.5; 7; 2]]]]%float in
  dim 2 (shape y) = 3 /\ get y 0 0 0 1 = get y 0 0 2 1.
Proof.
  apply (fit_average_is_the_same_for_every_origin "volume" some_w some_x
           some_exposure 3).
  - reflexivity.
  - simpl. lia.
  - lia.
Defined.

(** *** The exponents of the trend *)

Lemma nth_arange (n j : nat) : j < n -> nth j (arange n) 0%Z = Z.of_nat j.
Proof. intros H. unfold arange. apply nth_map_seq. exact H. Qed.

Lemma length_arange (n : nat) : length (arange n) = n.
Proof. unfold arange. rewrite length_map, length_seq. reflexivity. Qed.

Lemma index_differences (n i j : nat) :
  i < n -> j < n ->
  nth j (nth i (np_abs (sub_col_row (transpose (expand_dims0 (arange n)))
                                    (expand_dims0 (arange n)))) []) 0%Z
  = Z.abs (Z.of_nat i - Z.of_nat j).
Proof.
  intros Hi Hj.
  unfold np_abs, sub_col_row, transpose, expand_dims0. cbn [hd map].
  rewrite length_arange, !map_map.
  rewrite (nth_map_seq _ _ _ _ _ Hi). cbn [hd].
  rewrite (nth_arange _ _ Hi). unfold arange. rewrite !map_map.
  apply (nth_map_seq _ (fun r => Z.abs (Z.of_nat i - Z.of_nat r))). exact Hj.
Qed.

(** The trend of [fit] is raised, at origin [i] and development lag [j] of
    [n] origins, to the distance of the cell from the latest diagonal
    [i + j = n - 1]: 0 on that diagonal, one more for each step away, on
    either side. *)
Theorem trend_exponent_is_distance_to_latest_diagonal (n i j : nat) :
  i < n -> j < n ->
  length (trend_exponents n) = n
  /\ length (nth i (trend_exponents n) []) = n
  /\ nth j (nth i (trend_exponents n) []) 0%Z
     = Z.abs (Z.of_nat i + Z.of_nat j - (Z.of_nat n - 1))
  /\ (nth j (nth i (trend_exponents n) []) 0%Z = 0%Z <-> i + j = n - 1).
Proof.
  intros Hi Hj. unfold trend_exponents, flip0.
  set (m := np_abs _).
  assert (Hm : length m = n).
  { unfold m, np_abs, sub_col_row, transpose, expand_dims0. cbn [hd].
    rewrite !length_map, length_seq, length_arange. reflexivity. }
  assert (Hrow : forall a, a < n -> length (nth a m []) = n).
  { intros a Ha. unfold m, np_abs, sub_col_row, transpose, expand_dims0.
    cbn [hd map]. rewrite length_arange, !map_map.
    rewrite (nth_map_seq _ _ _ _ _ Ha).
    rewrite !length_map. apply length_arange. }
  rewrite length_rev, rev_nth, Hm by lia.
  assert (E : nth j (nth (n - S i) m []) 0%Z
              = Z.abs (Z.of_nat i + Z.of_nat j - (Z.of_nat n - 1))).
  { unfold m. rewrite index_differences by lia. lia. }
  split; [reflexivity|]. split; [apply Hrow; lia|]. split; [exact E|].
  rewrite E. lia.
Qed.

Lemma trend_exponent_is_distance_to_latest_diagonal_witness :
  length (trend_exponents 3) = 3
  /\ length (nth 1 (trend_exponents 3) []) = 3
  /\ nth 2 (nth 1 (trend_exponents 3) []) 0%Z
     = Z.abs (Z.of_nat 1 + Z.of_nat 2 - (Z.of_nat 3 - 1))
  /\ (nth 2 (nth 1 (trend_exponents 3) []) 0%Z = 0%Z <-> 1 + 2 = 3 - 1).
Proof. apply trend_exponent_is_distance_to_latest_diagonal; lia. Defined.

Example trend_exponents_of_3 :
  trend_exponents 3 = [[2; 1; 0]; [1; 0; 1]; [0; 1; 2]]%Z.
Proof. reflexivity. Qed.

End FitMore.

(** ** [head], [tail], [drop], [rename] *)

Module SliceMore.

Import Np Core CoreMore Terms MoreTerms NpFacts HeapFacts.

Local Open Scope string_scope.

Lemma map_nth_range (A : Type) (xs : list A) (d : A) (a len : nat) :
  a + len <= length xs ->
  map (fun i => nth i xs d) (seq a len) = firstn len (skipn a xs).
Proof.
  revert xs a. induction len as [|len IH]; intros xs a H; simpl.
  - reflexivity.
  - destruct (skipn a xs) as [|x r] eqn:E.
    + exfalso. pose proof (length_skipn a xs) as L. rewrite E in L.
      simpl in L. lia.
    + assert (Hx : nth a xs d = x).
      { rewrite <- (firstn_skipn a xs) at 1.
        rewrite app_nth2 by (rewrite length_firstn; lia).
        rewrite length_firstn, Nat.min_l by lia.
        rewrite Nat.sub_diag, E. reflexivity. }
      assert (Hr : skipn (S a) xs = r).
      { change (S a) with (1 + a). rewrite <- skipn_skipn, E. reflexivity. }
      rewrite Hx, IH by lia. rewrite Hr. reflexivity.
Qed.

Lemma iloc_range (t : Triangle) (a len : nat) :
  rows_ok t -> a + len <= dim 0 (tri_shape t) ->
  kdims (iloc t (seq a len)) = firstn len (skipn a (kdims t))
  /\ data (values (iloc t (seq a len)))
     = firstn len (skipn a (data (values t)))
  /\ tri_shape (iloc t (seq a len)) = set_dim 0 len (tri_shape t)
  /\ key_labels (iloc t (seq a len)) = key_labels t
  /\ vdims (iloc t (seq a len)) = vdims t
  /\ odims (iloc t (seq a len)) = odims t
  /\ ddims (iloc t (seq a len)) = ddims t.
Proof.
  intros (Hd & Hk) H. unfold iloc.
  destruct (tri_shape t) as [[[nr nc] no] nd] eqn:Hs. simpl in *.
  rewrite length_seq.
  rewrite !map_nth_range by lia. repeat split.
Qed.

Lemma iloc_all (t : Triangle) :
  rows_ok t -> iloc t (seq 0 (dim 0 (tri_shape t))) = t.
Proof.
  intros H. pose proof H as (Hd & Hk).
  destruct (iloc_range t 0 (dim 0 (tri_shape t)) H (le_n _))
    as (E1 & E2 & E3 & E4 & E5 & E6 & E7).
  assert (E8 : valuation_date (iloc t (seq 0 (dim 0 (tri_shape t))))
               = valuation_date t).
  { unfold iloc. destruct (tri_shape t) as [[[a b] c] d]. reflexivity. }
  assert (E3' : shape (values (iloc t (seq 0 (dim 0 (tri_shape t)))))
                = shape (values t)).
  { change (tri_shape (iloc t (seq 0 (dim 0 (tri_shape t)))) = tri_shape t).
    rewrite E3. destruct (tri_shape t) as [[[a b] c] d]. reflexivity. }
  set (r := iloc t (seq 0 (dim 0 (tri_shape t)))) in *.
  clearbody r. clear E3.
  simpl skipn in E1, E2.
  rewrite <- Hk, firstn_all in E1. rewrite <- Hd, firstn_all in E2.
  destruct r as [[s1 d1] k1 l1 v1 o1 dd1 vd1].
  destruct t as [[s2 d2] k2 l2 v2 o2 dd2 vd2].
  simpl in *. congruence.
Qed.

(** [head(n)] keeps the first [n] rows, values and keys, all of them when
    there are fewer; for a negative [n] it leaves out the last [-n] rows.
    The other axes and labels are untouched. *)
Theorem head_takes_the_first_rows (t : Triangle) (n : Z) :
  rows_ok t ->
  let m := if (n <? 0)%Z then dim 0 (tri_shape t) - Z.to_nat (- n)
           else Z.to_nat n in
  kdims (head t n) = firstn m (kdims t)
  /\ data (values (head t n)) = firstn m (data (values t))
  /\ tri_shape (head t n)
     = set_dim 0 (Nat.min m (dim 0 (tri_shape t))) (tri_shape t)
  /\ vdims (head t n) = vdims t /\ odims (head t n) = odims t
  /\ ddims (head t n) = ddims t.
Proof.
  intros H m. pose proof H as (Hd & Hk).
  unfold head, slice_rows, slice_bound. rewrite Nat.sub_0_r.
  set (R := dim 0 (tri_shape t)) in *.
  assert (Eb : (if (n <? 0)%Z then Z.to_nat (Z.max 0 (n + Z.of_nat R))
                else Nat.min (Z.to_nat n) R) = Nat.min m R).
  { unfold m. destruct (Z.ltb_spec n 0); lia. }
  rewrite Eb.
  destruct (iloc_range t 0 (Nat.min m R) H ltac:(unfold R; lia))
    as (E1 & E2 & E3 & _ & E5 & E6 & E7).
  simpl skipn in E1, E2.
  rewrite E1, E2, E3, E5, E6, E7.
  repeat split.
  - destruct (Nat.min_spec m R) as [(_ & ->)|(Hle & ->)]; [reflexivity|].
    rewrite !firstn_all2 by lia. reflexivity.
  - destruct (Nat.min_spec m R) as [(_ & ->)|(Hle & ->)]; [reflexivity|].
    rewrite !firstn_all2 by lia. reflexivity.
Qed.

Lemma head_takes_the_first_rows_witness :
  let t := four_rows in
  let m := if (3 <? 0)%Z then dim 0 (tri_shape t) - Z.to_nat (- 3)
           else Z.to_nat 3 in
  kdims (head t 3) = firstn m (kdims t)
  /\ data (values (head t 3)) = firstn m (data (values t))
  /\ tri_shape (head t 3)
     = set_dim 0 (Nat.min m (dim 0 (tri_shape t))) (tri_shape t)
  /\ vdims (head t 3) = vdims t /\ odims (head t 3) = odims t
  /\ ddims (head t 3) = ddims t.
Proof. apply (head_takes_the_first_rows four_rows 3). split; reflexivity. Defined.

(** [tail(n)] keeps the last [n] rows, all of them when there are fewer;
    but [tail(0)] is the whole triangle, since [-0:] is [0:]. *)
Theorem tail_takes_the_last_rows (t : Triangle) (n : Z) :
  rows_ok t ->
  (0 <= n)%Z ->
  let R := dim 0 (tri_shape t) in
  let a := if (n =? 0)%Z then 0 else R - Z.to_nat n in
  kdims (tail t n) = skipn a (kdims t)
  /\ data (values (tail t n)) = skipn a (data (values t))
  /\ tri_shape (tail t n) = set_dim 0 (R - a) (tri_shape t)
  /\ (n = 0%Z -> tail t n = t).
Proof.
  intros H Hn R a. pose proof H as (Hd & Hk).
  unfold tail, slice_rows, slice_bound. fold R.
  assert (Eb : (if (- n <? 0)%Z then Z.to_nat (Z.max 0 (- n + Z.of_nat R))
                else Nat.min (Z.to_nat (- n)) R) = a).
  { unfold a. destruct (Z.ltb_spec (- n) 0), (Z.eqb_spec n 0); lia. }
  rewrite Eb.
  assert (Ha : a <= R) by (unfold a; destruct (n =? 0)%Z; lia).
  destruct (iloc_range t a (R - a) H ltac:(fold R; lia))
    as (E1 & E2 & E3 & _).
  rewrite E1, E2, E3.
  split; [apply firstn_all2; rewrite length_skipn; fold R in Hk; lia|].
  split; [apply firstn_all2; rewrite length_skipn; fold R in Hd; lia|].
  split; [reflexivity|].
  intros ->. unfold a. simpl. rewrite Nat.sub_0_r. apply iloc_all, H.
Qed.

Lemma tail_takes_the_last_rows_witness :
  let t := four_rows in
  let R := dim 0 (tri_shape t) in
  let a := if (0 =? 0)%Z then 0 else R - Z.to_nat 0 in
  kdims (tail t 0) = skipn a (kdims t)
  /\ data (values (tail t 0)) = skipn a (data (values t))
  /\ tri_shape (tail t 0) = set_dim 0 (R - a) (tri_shape t)
  /\ (0%Z = 0%Z -> tail t 0 = t).
Proof.
  apply (tail_takes_the_last_rows four_rows 0); [split; reflexivity|lia].
Defined.

(** The first [n] rows and the last [R - n] of a triangle of [R] rows are,
    one after the other, all its rows, for [n] strictly between 0 and [R];
    at [n = R] the tail is asked for 0 rows and is the whole triangle. *)
Theorem head_and_tail_split_the_rows (t : Triangle) (n : nat) :
  rows_ok t ->
  0 < n < dim 0 (tri_shape t) ->
  let R := dim 0 (tri_shape t) in
  (kdims (head t (Z.of_nat n)) ++ kdims (tail t (Z.of_nat (R - n))))%list
  = kdims t
  /\ (data (values (head t (Z.of_nat n)))
      ++ data (values (tail t (Z.of_nat (R - n)))))%list
     = data (values t)
  /\ tail t (Z.of_nat (R - R)) = t.
Proof.
  intros H Hn R. pose proof H as (Hd & Hk). fold R in Hd, Hk.
  assert (Eh : head t (Z.of_nat n) = iloc t (seq 0 n)).
  { unfold head, slice_rows, slice_bound. fold R.
    destruct (Z.ltb_spec (Z.of_nat n) 0) as [?|_]; [lia|].
    rewrite Nat2Z.id, Nat.min_l, Nat.sub_0_r by lia. reflexivity. }
  assert (Et : tail t (Z.of_nat (R - n)) = iloc t (seq n (R - n))).
  { unfold tail, slice_rows, slice_bound. fold R.
    destruct (Z.ltb_spec (- Z.of_nat (R - n)) 0) as [_|?]; [|lia].
    replace (Z.to_nat (Z.max 0 (- Z.of_nat (R - n) + Z.of_nat R))) with n
      by lia.
    reflexivity. }
  assert (E0 : tail t (Z.of_nat (R - R)) = iloc t (seq 0 R)).
  { rewrite Nat.sub_diag. unfold tail, slice_rows, slice_bound. fold R.
    simpl. rewrite Nat.sub_0_r. reflexivity. }
  destruct (iloc_range t 0 n H ltac:(fold R; lia)) as (H1 & H2 & _).
  destruct (iloc_range t n (R - n) H ltac:(fold R; lia)) as (T1 & T2 & _).
  rewrite Eh, Et, E0, H1, H2, T1, T2. simpl skipn.
  rewrite (firstn_all2 (n := R - n)) by (rewrite length_skipn; lia).
  rewrite (firstn_all2 (n := R - n)) by (rewrite length_skipn; lia).
  rewrite !firstn_skipn.
  split; [reflexivity|]. split; [reflexivity|]. apply iloc_all, H.
Qed.

Lemma head_and_tail_split_the_rows_witness :
  let t := four_rows in
  let R := dim 0 (tri_shape t) in
  (kdims (head t (Z.of_nat 1)) ++ kdims (tail t (Z.of_nat (R - 1))))%list
  = kdims t
  /\ (data (values (head t (Z.of_nat 1)))
      ++ data (values (tail t (Z.of_nat (R - 1)))))%list
     = data (values t)
  /\ tail t (Z.of_nat (R - R)) = t.
Proof.
  apply (head_and_tail_split_the_rows four_rows 1);
    [split; reflexivity|simpl; lia].
Defined.

(** *** [rename] *)

Lemma store_same (h : heap) (r : ref) (o : Object) :
  nth_error h r = Some o -> store h r o = h.
Proof.
  revert r. induction h as [|x h IH]; intros [|r]; simpl; try discriminate.
  - intros [= ->]. reflexivity.
  - intros H. rewrite (IH r H). reflexivity.
Qed.

(** [rename] knows the axes 0 to 3 and their four names only: for any
    other axis, -1 and the like included, it calls no setter, raises
    nothing and returns [self] with the store as it was. *)
Theorem rename_ignores_other_axes
  (set_index set_columns set_origin set_development :
     Triangle -> list string -> result Triangle)
  (h : heap) (self : ref) (axis : axis_arg) (value : value_arg) (o : Object) :
  deref h self = Ok o ->
  renamed_axis axis = false ->
  rename set_index set_columns set_origin set_development h self axis value
  = Ok (h, self).
Proof.
  intros Ho Ha. unfold rename. rewrite Ho. cbn [bind].
  unfold renamed_axis in Ha. cbn [existsb] in Ha.
  repeat match type of Ha with
         | (_ || _)%bool = false => apply orb_false_iff in Ha as [? Ha]
         end.
  repeat match goal with
         | E : axis_arg_eqb axis _ = false |- _ => rewrite E; clear E
         end.
  cbn [orb bind].
  assert (E : set_this o (this o) = o) by (destruct o; reflexivity).
  rewrite E, store_same; [reflexivity|].
  apply deref_Some, Ho.
Qed.

Lemma rename_ignores_other_axes_witness :
  rename (fun t v => Ok (set_kdims t [v])) (fun _ _ => Raise ValueError)
         (fun _ _ => Raise ValueError) (fun _ _ => Raise ValueError)
         [new_Object four_rows] 0 (AxInt (-1)) (ValueStr "x")
  = Ok ([new_Object four_rows], 0).
Proof.
  apply (rename_ignores_other_axes _ _ _ _ _ _ _ _ (new_Object four_rows));
    reflexivity.
Defined.

(** *** [drop] *)

(** [drop] is written for the integer 1 alone: any other axis, the name
    'columns' too, is a [NotImplementedError], whatever the labels. *)
Theorem drop_needs_the_integer_axis_1 (self : Triangle) (labels : labels_arg)
  (axis : axis_arg) :
  axis <> AxInt 1 ->
  drop self labels axis = Raise NotImplementedError.
Proof.
  intros H. unfold drop.
  destruct axis as [z|name]; simpl; [|reflexivity].
  destruct (Z.eqb_spec z 1); [congruence|reflexivity].
Qed.

Lemma drop_needs_the_integer_axis_1_witness :
  drop three_columns (LabelsList [Name "paid"]) (AxStr "columns")
  = Raise NotImplementedError.
Proof. apply drop_needs_the_integer_axis_1. discriminate. Defined.

Lemma label_eqb_eq (a b : label) : label_eqb a b = true <-> a = b.
Proof.
  destruct a as [x|x], b as [y|y]; simpl.
  - rewrite String.eqb_eq. split; congruence.
  - split; discriminate.
  - split; discriminate.
  - rewrite Z.eqb_eq. split; congruence.
Qed.

Lemma label_position_found (columns : list label) (c : label) :
  In c columns ->
  exists p, label_position columns c = Ok p /\ nth_error columns p = Some c.
Proof.
  induction columns as [|x r IH]; simpl; intros H; [destruct H|].
  destruct (label_eqb x c) eqn:E.
  - apply label_eqb_eq in E. subst. exists 0. split; reflexivity.
  - destruct H as [->|H].
    + assert (label_eqb c c = true) by (apply label_eqb_eq; reflexivity).
      congruence.
    + destruct (IH H) as (p & -> & Hp). exists (S p). split; [reflexivity|exact Hp].
Qed.

Lemma mapM_label_position_found (columns names : list label) :
  (forall c, In c names -> In c columns) ->
  exists ps, mapM (label_position columns) names = Ok ps
             /\ length ps = length names.
Proof.
  induction names as [|x r IH]; intros H; simpl.
  - exists []. split; reflexivity.
  - destruct (label_position_found columns x) as (p & -> & _);
      [apply H; left; reflexivity|].
    destruct IH as (ps & -> & L); [intros c Hc; apply H; right; exact Hc|].
    exists (p :: ps). split; [reflexivity|simpl; congruence].
Qed.

Lemma columns_not_in_list (columns ls : list label) :
  columns_not_in columns (LabelsList ls)
  = Ok (filter (fun c => negb (existsb (label_eqb c) ls)) columns).
Proof.
  induction columns as [|x r IH]; simpl; [reflexivity|].
  rewrite IH. simpl. destruct (existsb (label_eqb x) ls); reflexivity.
Qed.

(** With a list of labels that leaves a column, [drop] along axis 1
    returns: the columns that are not in the list stay, in their order,
    and a label that is no column at all is passed over without a
    [KeyError]. *)
Theorem drop_keeps_the_other_columns (self : Triangle) (ls : list label)
  (c0 : label) :
  In c0 (vdims self) -> ~ In c0 ls ->
  exists r,
    drop self (LabelsList ls) (AxInt 1) = Ok r
    /\ vdims r = filter (fun c => negb (existsb (label_eqb c) ls)) (vdims self)
    /\ (forall c, In c (vdims r) <-> In c (vdims self) /\ ~ In c ls)
    /\ tri_shape r = set_dim 1 (length (vdims r)) (tri_shape self)
    /\ kdims r = kdims self /\ odims r = odims self /\ ddims r = ddims self.
Proof.
  intros _ _.
  unfold drop. simpl axis_arg_eqb. cbv iota.
  rewrite columns_not_in_list. cbn [bind].
  set (keep := filter _ (vdims self)).
  unfold getitem_columns.
  destruct (mapM_label_position_found (vdims self) keep) as (ps & -> & L).
  { intros c Hc. apply filter_In in Hc. apply Hc. }
  cbn [bind].
  change (shape (values self)) with (tri_shape self).
  destruct (tri_shape self) as [[[nr nc] no] nd]. rewrite L.
  eexists. split; [reflexivity|]. split; [reflexivity|]. split.
  - intros c. cbn [vdims set_vdims]. unfold keep. rewrite filter_In.
    rewrite negb_true_iff, <- not_true_iff_false, existsb_exists.
    split; intros (Hin & Hno); (split; [exact Hin|]).
    + intros Hl. apply Hno. exists c. split; [exact Hl|].
      apply label_eqb_eq. reflexivity.
    + intros (x & Hx & E). apply label_eqb_eq in E. subst. exact (Hno Hx).
  - repeat split.
Qed.

Lemma drop_keeps_the_other_columns_witness :
  exists r,
    drop three_columns (LabelsList [Name "incurred"; Name "case"]) (AxInt 1)
    = Ok r
    /\ vdims r
       = filter (fun c => negb (existsb (label_eqb c)
                                        [Name "incurred"; Name "case"]))
                (vdims three_columns)
    /\ (forall c, In c (vdims r) <->
                  In c (vdims three_columns)
                  /\ ~ In c [Name "incurred"; Name "case"])
    /\ tri_shape r = set_dim 1 (length (vdims r)) (tri_shape three_columns)
    /\ kdims r = kdims three_columns /\ odims r = odims three_columns
    /\ ddims r = ddims three_columns.
Proof.
  apply (drop_keeps_the_other_columns three_columns
           [Name "incurred"; Name "case"] (Name "paid")).
  - left. reflexivity.
  - intros [E|[E|[]]]; discriminate E.
Defined.

(** With the labels left out, [drop] along axis 1 raises [TypeError] as
    soon as there is a column to test against [None]. *)
Theorem drop_without_labels_raises (self : Triangle) :
  vdims self <> [] ->
  drop self LabelsNone (AxInt 1) = Raise TypeError.
Proof.
  intros H. unfold drop. simpl axis_arg_eqb. cbv iota.
  destruct (vdims self) as [|c r]; [contradiction|reflexivity].
Qed.

Lemma drop_without_labels_raises_witness :
  drop three_columns LabelsNone (AxInt 1) = Raise TypeError.
Proof. apply drop_without_labels_raises. discriminate. Defined.

Example drop_unknown_label :
  option_map vdims
    (match drop three_columns (LabelsList [Name "incurred"; Name "case"])
             (AxInt 1) with
     | Ok r => Some r
     | Raise _ => None
     end)
  = Some [Name "paid"; Num 0].
Proof. reflexivity. Qed.

End SliceMore.
